(** * WarsawGTFS realtime launcher (warsawgtfs_realtime.go)

    A shallow embedding of the command-line launcher: mode validation,
    static GTFS loading, the three one-shot entry points, the alerts loop
    entry point and [main].  The generation packages ([gtfs], [alerts],
    [brigades], [positions], [util]) are collaborators: their behaviour is
    a parameter of the development (class [Backend]), every call to them is
    recorded in a trace. *)

From Stdlib Require Import String Ascii List ZArith Bool Lia.
Import ListNotations.
Open Scope string_scope.

(** ** The pieces of Go's standard library the launcher uses *)

(** [errors.New]: an error value is its message. *)
Module errors.
Inductive error : Type := New (msg : string).
Definition Error (e : error) : string := let 'New msg := e in msg.
End errors.

(** [strings.HasPrefix(s, prefix)]. *)
Module strings.
Definition HasPrefix (s prefix : string) : bool := String.prefix prefix s.
End strings.

(** [path.Join] and [path.Clean].  [Clean] works element by element: empty
    elements and [.] vanish, [..] removes the element before it (or stays,
    at the front of a path that is not rooted; or vanishes, at the root). *)
Module path.

(** The elements of [s] between its slashes ([a//b] has an empty one). *)
Fixpoint split (s : string) : list string :=
  match s with
  | EmptyString => [EmptyString]
  | String c rest =>
      if Ascii.eqb c "/" then EmptyString :: split rest
      else match split rest with
           | [] => [String c EmptyString]
           | e :: es => String c e :: es
           end
  end.

Definition rooted (p : string) : bool :=
  match p with
  | String c _ => Ascii.eqb c "/"
  | EmptyString => false
  end.

(** [out] is the cleaned path so far, last element first. *)
Fixpoint walk (isRooted : bool) (elems out : list string) : list string :=
  match elems with
  | [] => out
  | e :: rest =>
      if (e =? "") || (e =? ".") then walk isRooted rest out
      else if e =? ".." then
        match out with
        | top :: below =>
            if top =? ".." then walk isRooted rest (".." :: out)
            else walk isRooted rest below
        | [] =>
            if isRooted then walk isRooted rest out
            else walk isRooted rest [".."]
        end
      else walk isRooted rest (e :: out)
  end.

Definition Clean (p : string) : string :=
  if p =? "" then "."
  else
    let out := rev (walk (rooted p) (split p) []) in
    let s := (if rooted p then "/" else "") ++ String.concat "/" out in
    if s =? "" then "." else s.

Definition Join (elem : list string) : string :=
  let size := fold_left (fun n e => (n + String.length e)%nat) elem 0%nat in
  if (size =? 0)%nat then ""
  else
    Clean (fold_left
             (fun buf e =>
                if (0 <? String.length buf)%nat || negb (e =? "") then
                  (if (0 <? String.length buf)%nat then buf ++ "/" else buf) ++ e
                else buf)
             elem "").

End path.

(** A file name proper: one path element, not empty, not [.] and not
    [..]. *)
Definition plainName (name : string) : Prop :=
  path.split name = [name] /\ (name =? "") = false
  /\ (name =? ".") = false /\ (name =? "..") = false.

(** ** Command-line flags

    Field names are the launcher's global flag variables; [flagPostions]
    is spelled as in the source.  Durations are nanosecond counts
    ([time.Duration] is an [int64]). *)
Record Flags : Type := {
  flagAlerts : bool;
  flagBrigades : bool;
  flagPostions : bool;
  flagApikey : string;
  flagGtfsFile : string;
  flagBrigadesFile : string;
  flagTarget : string;
  flagJSON : bool;
  flagReadable : bool;
  flagStrict : bool;
  flagLoop : Z;
  flagDataCheck : Z
}.

(** The values the flags have when the command line gives none. *)
Definition defaultFlags : Flags := {|
  flagAlerts := false;
  flagBrigades := false;
  flagPostions := false;
  flagApikey := "";
  flagGtfsFile := "https://mkuran.pl/gtfs/warsaw.zip";
  flagBrigadesFile := "https://mkuran.pl/gtfs/warsaw/brigades.json";
  flagTarget := "data_rt";
  flagJSON := false;
  flagReadable := false;
  flagStrict := false;
  flagLoop := 0;
  flagDataCheck := 30 * 60 * 1000000000
|}.

(** A duration the flag parser can produce fits an [int64]. *)
Definition int64_range (d : Z) : Prop := (- 2 ^ 63 <= d < 2 ^ 63)%Z.

Definition wf_flags (cfg : Flags) : Prop :=
  int64_range (flagLoop cfg) /\ int64_range (flagDataCheck cfg).

(** The command line with one flag changed. *)
Definition withApikey (k : string) (cfg : Flags) : Flags := {|
  flagAlerts := flagAlerts cfg;
  flagBrigades := flagBrigades cfg;
  flagPostions := flagPostions cfg;
  flagApikey := k;
  flagGtfsFile := flagGtfsFile cfg;
  flagBrigadesFile := flagBrigadesFile cfg;
  flagTarget := flagTarget cfg;
  flagJSON := flagJSON cfg;
  flagReadable := flagReadable cfg;
  flagStrict := flagStrict cfg;
  flagLoop := flagLoop cfg;
  flagDataCheck := flagDataCheck cfg
|}.

Definition withGtfsFile (file : string) (cfg : Flags) : Flags := {|
  flagAlerts := flagAlerts cfg;
  flagBrigades := flagBrigades cfg;
  flagPostions := flagPostions cfg;
  flagApikey := flagApikey cfg;
  flagGtfsFile := file;
  flagBrigadesFile := flagBrigadesFile cfg;
  flagTarget := flagTarget cfg;
  flagJSON := flagJSON cfg;
  flagReadable := flagReadable cfg;
  flagStrict := flagStrict cfg;
  flagLoop := flagLoop cfg;
  flagDataCheck := flagDataCheck cfg
|}.

Definition withReadable (r : bool) (cfg : Flags) : Flags := {|
  flagAlerts := flagAlerts cfg;
  flagBrigades := flagBrigades cfg;
  flagPostions := flagPostions cfg;
  flagApikey := flagApikey cfg;
  flagGtfsFile := flagGtfsFile cfg;
  flagBrigadesFile := flagBrigadesFile cfg;
  flagTarget := flagTarget cfg;
  flagJSON := flagJSON cfg;
  flagReadable := r;
  flagStrict := flagStrict cfg;
  flagLoop := flagLoop cfg;
  flagDataCheck := flagDataCheck cfg
|}.

Definition withLoop (d : Z) (cfg : Flags) : Flags := {|
  flagAlerts := flagAlerts cfg;
  flagBrigades := flagBrigades cfg;
  flagPostions := flagPostions cfg;
  flagApikey := flagApikey cfg;
  flagGtfsFile := flagGtfsFile cfg;
  flagBrigadesFile := flagBrigadesFile cfg;
  flagTarget := flagTarget cfg;
  flagJSON := flagJSON cfg;
  flagReadable := flagReadable cfg;
  flagStrict := flagStrict cfg;
  flagLoop := d;
  flagDataCheck := flagDataCheck cfg
|}.

(** The command lines [-a], [-b -k key] and [-p -k key]. *)
Definition alertsFlags : Flags := {|
  flagAlerts := true;
  flagBrigades := false;
  flagPostions := false;
  flagApikey := "";
  flagGtfsFile := flagGtfsFile defaultFlags;
  flagBrigadesFile := flagBrigadesFile defaultFlags;
  flagTarget := flagTarget defaultFlags;
  flagJSON := false;
  flagReadable := false;
  flagStrict := false;
  flagLoop := 0;
  flagDataCheck := flagDataCheck defaultFlags
|}.

Definition brigadesFlags : Flags := {|
  flagAlerts := false;
  flagBrigades := true;
  flagPostions := false;
  flagApikey := "key";
  flagGtfsFile := flagGtfsFile defaultFlags;
  flagBrigadesFile := flagBrigadesFile defaultFlags;
  flagTarget := flagTarget defaultFlags;
  flagJSON := false;
  flagReadable := false;
  flagStrict := false;
  flagLoop := 0;
  flagDataCheck := flagDataCheck defaultFlags
|}.

Definition positionsFlags : Flags := {|
  flagAlerts := false;
  flagBrigades := false;
  flagPostions := true;
  flagApikey := "key";
  flagGtfsFile := flagGtfsFile defaultFlags;
  flagBrigadesFile := flagBrigadesFile defaultFlags;
  flagTarget := flagTarget defaultFlags;
  flagJSON := false;
  flagReadable := false;
  flagStrict := false;
  flagLoop := 0;
  flagDataCheck := flagDataCheck defaultFlags
|}.

(** The number of mode flags that are set. *)
Definition intents (cfg : Flags) : nat :=
  (Nat.b2n (flagAlerts cfg) + Nat.b2n (flagBrigades cfg)
   + Nat.b2n (flagPostions cfg))%nat.

(** A location is network-addressed when it begins with a scheme. *)
Definition networkAddressed (location : string) : bool :=
  String.prefix "http://" location || String.prefix "https://" location.

(** Two command lines agree on what goes into the option bundles: target
    directory, the format, JSON and strict flags, the credential and the
    input locations. *)
Definition sameConfiguration (c1 c2 : Flags) : Prop :=
  flagTarget c1 = flagTarget c2 /\
  flagReadable c1 = flagReadable c2 /\
  flagJSON c1 = flagJSON c2 /\
  flagStrict c1 = flagStrict c2 /\
  flagApikey c1 = flagApikey c2 /\
  flagGtfsFile c1 = flagGtfsFile c2 /\
  flagBrigadesFile c1 = flagBrigadesFile c2.

(** ** The option bundles of the generation packages

    One module per Go package; the fields are those the launcher's struct
    literals name, a field a literal leaves out has its zero value. *)
Module alerts.
Record Options : Type := {
  GtfsRtTarget : string;
  JSONTarget : string;
  HumanReadable : bool;
  ThrowLinkErrors : bool
}.
(** [opts.JSONTarget = v] *)
Definition set_JSONTarget (v : string) (opts : Options) : Options :=
  {| GtfsRtTarget := GtfsRtTarget opts;
     JSONTarget := v;
     HumanReadable := HumanReadable opts;
     ThrowLinkErrors := ThrowLinkErrors opts |}.
End alerts.

Module brigades.
Record Options : Type := {
  JSONTarget : string;
  Apikey : string;
  ThrowAPIErrors : bool
}.
End brigades.

Module positions.
Record Options : Type := {
  GtfsRtTarget : string;
  JSONTarget : string;
  HumanReadable : bool;
  Apikey : string;
  Brigades : string
}.
(** [opts.JSONTarget = v] *)
Definition set_JSONTarget (v : string) (opts : Options) : Options :=
  {| GtfsRtTarget := GtfsRtTarget opts;
     JSONTarget := v;
     HumanReadable := HumanReadable opts;
     Apikey := Apikey opts;
     Brigades := Brigades opts |}.
End positions.

(** [util.Resource] with its two implementations, as the launcher builds
    them ([Peroid] is the source's spelling). *)
Module util.
Inductive Resource (C : Type) : Type :=
| ResourceHTTP (Client : C) (URL : string) (Peroid : Z)
| ResourceLocal (Path : string) (Peroid : Z).
Arguments ResourceHTTP {C} Client URL Peroid.
Arguments ResourceLocal {C} Path Peroid.
End util.

(** The option bundles a command line stands for, field by field. *)
Definition alertsBundle (cfg : Flags) : alerts.Options := {|
  alerts.GtfsRtTarget := path.Join [flagTarget cfg; "alerts.pb"];
  alerts.JSONTarget :=
    if flagJSON cfg then path.Join [flagTarget cfg; "alerts.json"] else "";
  alerts.HumanReadable := flagReadable cfg;
  alerts.ThrowLinkErrors := flagStrict cfg
|}.

Definition brigadesBundle (cfg : Flags) : brigades.Options := {|
  brigades.JSONTarget := path.Join [flagTarget cfg; "brigades.json"];
  brigades.Apikey := flagApikey cfg;
  brigades.ThrowAPIErrors := flagStrict cfg
|}.

Definition positionsBundle (cfg : Flags) : positions.Options := {|
  positions.GtfsRtTarget := path.Join [flagTarget cfg; "positions.pb"];
  positions.JSONTarget :=
    if flagJSON cfg then path.Join [flagTarget cfg; "positions.json"] else "";
  positions.HumanReadable := flagReadable cfg;
  positions.Apikey := flagApikey cfg;
  positions.Brigades := flagBrigadesFile cfg
|}.

(** What a call that may run for ever gives back. *)
Inductive Completion (A : Type) : Type :=
| Returns (a : A)
| Forever.
Arguments Returns {A} a.
Arguments Forever {A}.

(** ** The collaborators

    [Gtfs] is the type of [*gtfs.Gtfs] values together with what they point
    to ([nilGtfs] is the nil pointer): a method that fills the dataset gives
    the filled dataset back.  A Go function returning [(v, err)] returns a
    pair with an optional error.  What the methods and the field [Routes]
    give on a nil pointer is the backend's to say. *)
Class Backend : Type := {
  Client : Type;
  Gtfs : Type;
  ZipFile : Type;
  RouteMap : Type;
  client : Client;
  nilGtfs : Gtfs;
  gtfs_NewGtfsFromURL : string -> Client -> Gtfs * option errors.error;
  gtfs_NewGtfsFromFile : string -> Gtfs * option errors.error;
  gtfs_GetZipFileByName : Gtfs -> string -> option ZipFile;
  gtfs_LoadRoutes : Gtfs -> ZipFile -> Gtfs * option errors.error;
  gtfs_LoadAll : Gtfs -> Gtfs * option errors.error;
  gtfs_Routes : Gtfs -> RouteMap;
  alerts_Make : Client -> RouteMap -> alerts.Options -> option errors.error;
  alerts_Loop : Client -> util.Resource Client -> Z -> alerts.Options ->
                Completion (option errors.error);
  brigades_Main : Client -> Gtfs -> brigades.Options -> option errors.error;
  positions_Main : Client -> positions.Options -> option errors.error
}.

(** How a run of [main] ends: normally, through [log.Fatalln], or never
    (the alerts loop does not come back). *)
Inductive Outcome : Type :=
| Exit
| Fatal (msg : string)
| Running.

(** A small backend to run the launcher on: the dataset container holds
    the files [files], a dataset is the container's files and the tables
    loaded from it, everything succeeds and the alerts loop never comes
    back. *)
Definition demoBackend (files : list string) : Backend := {|
  Client := unit;
  Gtfs := list string * list string;
  ZipFile := string;
  RouteMap := list string;
  client := tt;
  nilGtfs := ([], []);
  gtfs_NewGtfsFromURL := fun _ _ => ((files, []), None);
  gtfs_NewGtfsFromFile := fun _ => ((files, []), None);
  gtfs_GetZipFileByName := fun g name =>
    if existsb (String.eqb name) (fst g) then Some name else None;
  gtfs_LoadRoutes := fun g file => ((fst g, file :: snd g), None);
  gtfs_LoadAll := fun g => ((fst g, fst g), None);
  gtfs_Routes := fun g => snd g;
  alerts_Make := fun _ _ _ => None;
  alerts_Loop := fun _ _ _ _ => Forever;
  brigades_Main := fun _ _ _ => None;
  positions_Main := fun _ _ => None
|}.

(** ** The loop driver *)
Module LoopDriver.

(** Modelled from the spec: the body of [alerts.Loop] is not part of the
    launcher, these are the states of the Loop Driver's state machine
    (section 4.4), with the terminal state. *)
Inductive Phase : Type :=
| Idle | Checking | Unchanged | Changed | Regenerating | Sleeping
| Terminated.

(** The boundaries an instrumented collaborator records, with the number
    of the cycle. *)
Inductive Mark : Type :=
| CheckBegins (n : nat)
| CheckEnds (n : nat)
| RegenerationBegins (n : nat)
| RegenerationEnds (n : nat).

(** What the Resource answers to a check (section 4.1). *)
Inductive CheckResult : Type :=
| ReportsUnchanged | ReportsChanged | ProbeFails | FetchFails.

(** The surroundings of a run: the Resource's answer and the success of
    the regeneration in each cycle, the strict flag, and the policy for a
    failed regeneration without the strict flag (left open by the
    spec). *)
Record Env : Type := {
  check : nat -> CheckResult;
  regenerationSucceeds : nat -> bool;
  strict : bool;
  continueAfterFailure : bool
}.

(** [marks] has the newest mark first. *)
Record Driver : Type := {
  phase : Phase;
  cycle : nat;
  marks : list Mark
}.

Definition start : Driver := {| phase := Idle; cycle := 0; marks := [] |}.

Definition goto (p : Phase) (d : Driver) : Driver :=
  {| phase := p; cycle := cycle d; marks := marks d |}.

Definition record (m : Mark) (d : Driver) : Driver :=
  {| phase := phase d; cycle := cycle d; marks := m :: marks d |}.

(** Modelled from the spec: one transition of the Loop Driver (the body of
    [alerts.Loop] is missing from the sources),
    [Idle -> Checking -> (Unchanged -> Sleeping -> Checking) |
     (Changed -> Regenerating -> Sleeping -> Checking)]; a failed fetch is
    fatal, a failed probe counts as unchanged unless the strict flag is
    set, a failed regeneration is fatal with the strict flag and follows
    the policy without it. *)
Definition step (E : Env) (d : Driver) : Driver :=
  match phase d with
  | Idle => record (CheckBegins (cycle d)) (goto Checking d)
  | Checking =>
      match check E (cycle d) with
      | ReportsUnchanged => record (CheckEnds (cycle d)) (goto Unchanged d)
      | ReportsChanged => record (CheckEnds (cycle d)) (goto Changed d)
      | ProbeFails =>
          if strict E then goto Terminated d
          else record (CheckEnds (cycle d)) (goto Unchanged d)
      | FetchFails => goto Terminated d
      end
  | Unchanged => goto Sleeping d
  | Changed => record (RegenerationBegins (cycle d)) (goto Regenerating d)
  | Regenerating =>
      if regenerationSucceeds E (cycle d)
         || (negb (strict E) && continueAfterFailure E)
      then record (RegenerationEnds (cycle d)) (goto Sleeping d)
      else goto Terminated d
  | Sleeping =>
      {| phase := Checking;
         cycle := S (cycle d);
         marks := CheckBegins (S (cycle d)) :: marks d |}
  | Terminated => d
  end.

(** The driver after [k] transitions. *)
Fixpoint run (E : Env) (k : nat) : Driver :=
  match k with
  | O => start
  | S k => step E (run E k)
  end.

(** The marks of a run in the order they were recorded. *)
Definition history (E : Env) (k : nat) : list Mark := rev (marks (run E k)).

(** [a] is recorded strictly before [b] in [l]. *)
Definition before (a b : Mark) (l : list Mark) : Prop :=
  exists l1 l2 l3, l = (l1 ++ a :: l2 ++ b :: l3)%list.

(** The place of a mark on the time line: its cycle, then its rank in
    the cycle. *)
Definition key (m : Mark) : nat :=
  match m with
  | CheckBegins n => 4 * n
  | CheckEnds n => 4 * n + 1
  | RegenerationBegins n => 4 * n + 2
  | RegenerationEnds n => 4 * n + 3
  end.

(** Newest first, the marks go down the time line. *)
Fixpoint descending (l : list Mark) : Prop :=
  match l with
  | [] => True
  | m :: l => (forall x, In x l -> key x < key m) /\ descending l
  end.

(** The first place on the time line that the driver has not passed. *)
Definition clock (d : Driver) : nat :=
  match phase d with
  | Idle => 4 * cycle d
  | Checking => 4 * cycle d + 1
  | Unchanged | Changed => 4 * cycle d + 2
  | Regenerating => 4 * cycle d + 3
  | Sleeping | Terminated => 4 * cycle d + 4
  end.

(** What the marks hold of the current cycle, by phase. *)
Definition current (d : Driver) : Prop :=
  match phase d with
  | Idle => cycle d = 0
  | Terminated => True
  | Checking => In (CheckBegins (cycle d)) (marks d)
  | Unchanged | Changed =>
      In (CheckBegins (cycle d)) (marks d)
      /\ In (CheckEnds (cycle d)) (marks d)
  | Regenerating =>
      In (CheckBegins (cycle d)) (marks d)
      /\ In (CheckEnds (cycle d)) (marks d)
      /\ In (RegenerationBegins (cycle d)) (marks d)
  | Sleeping =>
      In (CheckBegins (cycle d)) (marks d)
      /\ In (CheckEnds (cycle d)) (marks d)
      /\ (In (RegenerationBegins (cycle d)) (marks d) ->
          In (RegenerationEnds (cycle d)) (marks d))
  end.

(** A cycle that was followed by another one is complete. *)
Definition closed (l : list Mark) : Prop :=
  forall n, In (CheckBegins (S n)) l ->
    In (CheckBegins n) l /\ In (CheckEnds n) l
    /\ (In (RegenerationBegins n) l -> In (RegenerationEnds n) l).

(** What every reachable driver satisfies. *)
Definition invariant (d : Driver) : Prop :=
  descending (marks d)
  /\ (forall m, In m (marks d) -> key m < clock d)
  /\ current d
  /\ closed (marks d).

(** Nothing fails: every check gets an answer and every regeneration
    succeeds. *)
Definition healthy (E : Env) : Prop :=
  forall n,
    (check E n = ReportsUnchanged \/ check E n = ReportsChanged)
    /\ regenerationSucceeds E n = true.

(** [j] more transitions from [d]. *)
Fixpoint steps (E : Env) (j : nat) (d : Driver) : Driver :=
  match j with
  | O => d
  | S j => step E (steps E j d)
  end.

(** An environment to run the driver on: the content changes in the
    cycles 1 and 3 only, nothing fails. *)
Definition demoEnv : Env := {|
  check := fun n => if (n =? 1)%nat || (n =? 3)%nat
                    then ReportsChanged else ReportsUnchanged;
  regenerationSucceeds := fun _ => true;
  strict := false;
  continueAfterFailure := false
|}.

End LoopDriver.

Section Launcher.
Context {B : Backend}.

(** What the process does that can be observed: the lines it logs and
    the calls it makes into the generation packages. *)
Inductive Event : Type :=
| Println (msg : string)
| NewGtfsFromURL (url : string) (c : Client)
| NewGtfsFromFile (file : string)
| GetZipFileByName (name : string)
| LoadRoutes (file : ZipFile)
| LoadAll
| AlertsMake (c : Client) (routes : RouteMap) (opts : alerts.Options)
| AlertsLoop (c : Client) (res : util.Resource Client) (sleepTime : Z)
             (opts : alerts.Options)
| BrigadesMain (c : Client) (g : Gtfs) (opts : brigades.Options)
| PositionsMain (c : Client) (opts : positions.Options).

(** The mutable globals ([gtfsFile]) and the events so far, oldest
    first. *)
Record State : Type := {
  gtfsFile : Gtfs;
  trace : list Event
}.

Definition initial : State := {| gtfsFile := nilGtfs; trace := [] |}.

(** *** State passing *)

Definition M (A : Type) : Type := State -> A * State.

Definition ret {A : Type} (a : A) : M A := fun s => (a, s).

Definition bind {A C : Type} (m : M A) (k : A -> M C) : M C :=
  fun s => let (a, s') := m s in k a s'.

Definition emit (e : Event) : M unit :=
  fun s => (tt, {| gtfsFile := gtfsFile s; trace := trace s ++ [e] |}).

Definition getGtfs : M Gtfs := fun s => (gtfsFile s, s).

Definition setGtfs (g : Gtfs) : M unit :=
  fun s => (tt, {| gtfsFile := g; trace := trace s |}).

Local Notation "x <- m ;; k" := (bind m (fun x => k))
  (at level 61, m at next level, right associativity).
Local Notation "m ;; k" := (bind m (fun _ => k))
  (at level 61, right associativity).

(** [log.Println] *)
Definition log_Println (msg : string) : M unit := emit (Println msg).

(** *** Calls into the generation packages: the call is recorded, the
    backend gives the result. *)

Definition call_NewGtfsFromURL (url : string) (c : Client)
  : M (Gtfs * option errors.error) :=
  emit (NewGtfsFromURL url c) ;; ret (gtfs_NewGtfsFromURL url c).

Definition call_NewGtfsFromFile (file : string)
  : M (Gtfs * option errors.error) :=
  emit (NewGtfsFromFile file) ;; ret (gtfs_NewGtfsFromFile file).

(** [gtfsFile.GetZipFileByName(name)] *)
Definition call_GetZipFileByName (name : string) : M (option ZipFile) :=
  emit (GetZipFileByName name) ;;
  g <- getGtfs ;;
  ret (gtfs_GetZipFileByName g name).

(** [gtfsFile.LoadRoutes(file)]: fills the dataset [gtfsFile] points to. *)
Definition call_LoadRoutes (file : ZipFile) : M (option errors.error) :=
  emit (LoadRoutes file) ;;
  g <- getGtfs ;;
  setGtfs (fst (gtfs_LoadRoutes g file)) ;;
  ret (snd (gtfs_LoadRoutes g file)).

(** [gtfsFile.LoadAll()] *)
Definition call_LoadAll : M (option errors.error) :=
  emit LoadAll ;;
  g <- getGtfs ;;
  setGtfs (fst (gtfs_LoadAll g)) ;;
  ret (snd (gtfs_LoadAll g)).

Definition call_alerts_Make (c : Client) (routes : RouteMap)
  (opts : alerts.Options) : M (option errors.error) :=
  emit (AlertsMake c routes opts) ;; ret (alerts_Make c routes opts).

Definition call_alerts_Loop (c : Client) (res : util.Resource Client)
  (sleepTime : Z) (opts : alerts.Options)
  : M (Completion (option errors.error)) :=
  emit (AlertsLoop c res sleepTime opts) ;;
  ret (alerts_Loop c res sleepTime opts).

Definition call_brigades_Main (c : Client) (g : Gtfs)
  (opts : brigades.Options) : M (option errors.error) :=
  emit (BrigadesMain c g opts) ;; ret (brigades_Main c g opts).

Definition call_positions_Main (c : Client) (opts : positions.Options)
  : M (option errors.error) :=
  emit (PositionsMain c opts) ;; ret (positions_Main c opts).

(** *** The launcher's functions *)

(** [modeCount++] on a [uint8] *)
Definition uint8_incr (n : Z) : Z := ((n + 1) mod 256)%Z.

(** [checkModes] ensures exactly one of [flagAlerts], [flagBrigades] or
    [flagPostions] is set. *)
Definition checkModes (cfg : Flags) : M (option errors.error) :=
  let modeCount := 0%Z in
  let modeCount := if flagAlerts cfg then uint8_incr modeCount else modeCount in
  let modeCount := if flagBrigades cfg then uint8_incr modeCount else modeCount in
  let modeCount := if flagPostions cfg then uint8_incr modeCount else modeCount in
  if negb (modeCount =? 1)%Z then
    ret (Some (errors.New
                 "exactly one of the -a, -b or -p flags has to be provided"))
  else ret None.

(** [loadGtfs] creates a gtfs file from the provided argument and loads
    the required data structures. *)
Definition loadGtfs (cfg : Flags) : M (option errors.error) :=
  log_Println "Retrieving provided GTFS" ;;
  r <- (if strings.HasPrefix (flagGtfsFile cfg) "http://"
           || strings.HasPrefix (flagGtfsFile cfg) "https://"
        then call_NewGtfsFromURL (flagGtfsFile cfg) client
        else call_NewGtfsFromFile (flagGtfsFile cfg)) ;;
  setGtfs (fst r) ;;
  match snd r with
  | Some err => ret (Some err)
  | None =>
      if flagAlerts cfg then
        log_Println "Loading routes.txt" ;;
        routesFile <- call_GetZipFileByName "routes.txt" ;;
        match routesFile with
        | Some routesFile => call_LoadRoutes routesFile
        | None => ret (Some (errors.New "no file routes.txt in the GTFS"))
        end
      else
        log_Println "Loading data from the GTFS" ;;
        call_LoadAll
  end.

(** [mainAlerts] prepares options for creating alerts and then creates
    them. *)
Definition mainAlerts (cfg : Flags) : M (option errors.error) :=
  let opts := {| alerts.GtfsRtTarget := path.Join [flagTarget cfg; "alerts.pb"];
                 alerts.JSONTarget := "";
                 alerts.HumanReadable := flagReadable cfg;
                 alerts.ThrowLinkErrors := flagStrict cfg |} in
  let opts :=
    if flagJSON cfg
    then alerts.set_JSONTarget (path.Join [flagTarget cfg; "alerts.json"]) opts
    else opts in
  log_Println "Creating Alerts feed" ;;
  g <- getGtfs ;;
  call_alerts_Make client (gtfs_Routes g) opts.

(** [loopAlerts] prepares options for the loop mode and then launches
    the loop mode. *)
Definition loopAlerts (cfg : Flags) : M (Completion (option errors.error)) :=
  let opts := {| alerts.GtfsRtTarget := path.Join [flagTarget cfg; "alerts.pb"];
                 alerts.JSONTarget := "";
                 alerts.HumanReadable := flagReadable cfg;
                 alerts.ThrowLinkErrors := flagStrict cfg |} in
  let opts :=
    if flagJSON cfg
    then alerts.set_JSONTarget (path.Join [flagTarget cfg; "alerts.json"]) opts
    else opts in
  let gtfsResource :=
    if strings.HasPrefix (flagGtfsFile cfg) "http://"
       || strings.HasPrefix (flagGtfsFile cfg) "https://"
    then util.ResourceHTTP client (flagGtfsFile cfg) (flagDataCheck cfg)
    else util.ResourceLocal (flagGtfsFile cfg) (flagDataCheck cfg) in
  call_alerts_Loop client gtfsResource (flagLoop cfg) opts.

(** [mainBrigades] prepares options for creating brigades and then
    creates them. *)
Definition mainBrigades (cfg : Flags) : M (option errors.error) :=
  if flagApikey cfg =? "" then
    ret (Some (errors.New "Key for api.um.warszawa.pl needs to be provided"))
  else
    let opts := {| brigades.JSONTarget := path.Join [flagTarget cfg; "brigades.json"];
                   brigades.Apikey := flagApikey cfg;
                   brigades.ThrowAPIErrors := flagStrict cfg |} in
    log_Println "Creating brigades.json" ;;
    g <- getGtfs ;;
    call_brigades_Main client g opts.

(** [mainPositions] parses options for creating vehicle positions and
    then creates them. *)
Definition mainPositions (cfg : Flags) : M (option errors.error) :=
  if flagApikey cfg =? "" then
    ret (Some (errors.New "Key for api.um.warszawa.pl needs to be provided"))
  else
    let opts := {| positions.GtfsRtTarget := path.Join [flagTarget cfg; "positions.pb"];
                   positions.JSONTarget := "";
                   positions.HumanReadable := flagReadable cfg;
                   positions.Apikey := flagApikey cfg;
                   positions.Brigades := flagBrigadesFile cfg |} in
    let opts :=
      if flagJSON cfg
      then positions.set_JSONTarget
             (path.Join [flagTarget cfg; "positions.json"]) opts
      else opts in
    log_Println "Creating brigades.json" ;;
    call_positions_Main client opts.

(** A call that comes back, as one that may not. *)
Definition returning (m : M (option errors.error))
  : M (Completion (option errors.error)) :=
  err <- m ;; ret (Returns err).

(** [main], after [flag.Parse()] has stored the command line in [cfg];
    [log.Fatalln] ends the run with its message. *)
Definition main (cfg : Flags) : M Outcome :=
  let loopMode := (flagLoop cfg >? 0)%Z in
  err <- checkModes cfg ;;
  match err with
  | Some err => ret (Fatal (errors.Error err))
  | None =>
      err <- (if negb (flagPostions cfg) && negb loopMode
              then loadGtfs cfg
              else ret None) ;;
      match err with
      | Some err => ret (Fatal (errors.Error err))
      | None =>
          r <- (if flagAlerts cfg && loopMode then loopAlerts cfg
                else if flagAlerts cfg then returning (mainAlerts cfg)
                else if loopMode then
                  ret (Returns (Some (errors.New
                                        "loop mode is only available for alerts")))
                else if flagBrigades cfg then returning (mainBrigades cfg)
                else if flagPostions cfg then returning (mainPositions cfg)
                else ret (Returns None)) ;;
          match r with
          | Forever => ret Running
          | Returns (Some err) => ret (Fatal (errors.Error err))
          | Returns None => ret Exit
          end
      end
  end.

(** [run cfg] is a whole run of the process from its initial state. *)
Definition run (cfg : Flags) : Outcome * State := main cfg initial.

(** *** What a trace shows *)

(** The events that fetch or load the static dataset. *)
Definition loads (e : Event) : bool :=
  match e with
  | NewGtfsFromURL _ _ | NewGtfsFromFile _ | GetZipFileByName _
  | LoadRoutes _ | LoadAll => true
  | _ => false
  end.

(** The calls that generate an output. *)
Definition generates (e : Event) : bool :=
  match e with
  | AlertsMake _ _ _ | AlertsLoop _ _ _ _ | BrigadesMain _ _ _
  | PositionsMain _ _ => true
  | _ => false
  end.

(** The options handed to the alerts package, by [alerts.Make] or by
    [alerts.Loop]. *)
Definition alertsOptions (e : Event) : option alerts.Options :=
  match e with
  | AlertsMake _ _ opts | AlertsLoop _ _ _ opts => Some opts
  | _ => None
  end.

Definition brigadesOptions (e : Event) : option brigades.Options :=
  match e with
  | BrigadesMain _ _ opts => Some opts
  | _ => None
  end.

Definition positionsOptions (e : Event) : option positions.Options :=
  match e with
  | PositionsMain _ opts => Some opts
  | _ => None
  end.

(** The resource handed to [alerts.Loop]. *)
Definition loopResource (e : Event) : option (util.Resource Client) :=
  match e with
  | AlertsLoop _ res _ _ => Some res
  | _ => None
  end.

(** [pick f l]: the values [f] finds in [l], in order. *)
Fixpoint pick {A : Type} (f : Event -> option A) (l : list Event) : list A :=
  match l with
  | [] => []
  | e :: l => match f e with
              | Some a => a :: pick f l
              | None => pick f l
              end
  end.

(** The events that retrieve the dataset container. *)
Definition retrieves (e : Event) : bool :=
  match e with
  | NewGtfsFromURL _ _ | NewGtfsFromFile _ => true
  | _ => false
  end.

(** The events that load tables of the dataset. *)
Definition loadsTables (e : Event) : bool :=
  match e with
  | LoadRoutes _ | LoadAll => true
  | _ => false
  end.

(** What retrieving the dataset container gives, whichever way it is
    addressed. *)
Definition retrieved (cfg : Flags) : Gtfs * option errors.error :=
  if networkAddressed (flagGtfsFile cfg)
  then gtfs_NewGtfsFromURL (flagGtfsFile cfg) client
  else gtfs_NewGtfsFromFile (flagGtfsFile cfg).

(** The call that retrieves the container at the location the command
    line gives. *)
Definition retrieval (cfg : Flags) : Event :=
  if networkAddressed (flagGtfsFile cfg)
  then NewGtfsFromURL (flagGtfsFile cfg) client
  else NewGtfsFromFile (flagGtfsFile cfg).

(** The resource for the location the command line gives. *)
Definition resourceFor (cfg : Flags) : util.Resource Client :=
  if networkAddressed (flagGtfsFile cfg)
  then util.ResourceHTTP client (flagGtfsFile cfg) (flagDataCheck cfg)
  else util.ResourceLocal (flagGtfsFile cfg) (flagDataCheck cfg).

(** [s] with [l] added to its trace and [g] as its dataset. *)
Definition after (s : State) (g : Gtfs) (l : list Event) : State :=
  {| gtfsFile := g; trace := trace s ++ l |}.

(** The events [m] adds when it runs from [s]. *)
Definition events {A : Type} (m : M A) (s : State) : list Event :=
  skipn (List.length (trace s)) (trace (snd (m s))).

End Launcher.

(** ** More command lines and surroundings *)

(** How [main] ends after a generation call that came back. *)
Definition outcomeOf (err : option errors.error) : Outcome :=
  match err with
  | Some err => Fatal (errors.Error err)
  | None => Exit
  end.

(** More flags changed one at a time. *)
Definition withJSON (j : bool) (cfg : Flags) : Flags := {|
  flagAlerts := flagAlerts cfg;
  flagBrigades := flagBrigades cfg;
  flagPostions := flagPostions cfg;
  flagApikey := flagApikey cfg;
  flagGtfsFile := flagGtfsFile cfg;
  flagBrigadesFile := flagBrigadesFile cfg;
  flagTarget := flagTarget cfg;
  flagJSON := j;
  flagReadable := flagReadable cfg;
  flagStrict := flagStrict cfg;
  flagLoop := flagLoop cfg;
  flagDataCheck := flagDataCheck cfg
|}.

Definition withStrict (b : bool) (cfg : Flags) : Flags := {|
  flagAlerts := flagAlerts cfg;
  flagBrigades := flagBrigades cfg;
  flagPostions := flagPostions cfg;
  flagApikey := flagApikey cfg;
  flagGtfsFile := flagGtfsFile cfg;
  flagBrigadesFile := flagBrigadesFile cfg;
  flagTarget := flagTarget cfg;
  flagJSON := flagJSON cfg;
  flagReadable := flagReadable cfg;
  flagStrict := b;
  flagLoop := flagLoop cfg;
  flagDataCheck := flagDataCheck cfg
|}.

Definition withDataCheck (d : Z) (cfg : Flags) : Flags := {|
  flagAlerts := flagAlerts cfg;
  flagBrigades := flagBrigades cfg;
  flagPostions := flagPostions cfg;
  flagApikey := flagApikey cfg;
  flagGtfsFile := flagGtfsFile cfg;
  flagBrigadesFile := flagBrigadesFile cfg;
  flagTarget := flagTarget cfg;
  flagJSON := flagJSON cfg;
  flagReadable := flagReadable cfg;
  flagStrict := flagStrict cfg;
  flagLoop := flagLoop cfg;
  flagDataCheck := d
|}.

Definition withBrigadesFile (file : string) (cfg : Flags) : Flags := {|
  flagAlerts := flagAlerts cfg;
  flagBrigades := flagBrigades cfg;
  flagPostions := flagPostions cfg;
  flagApikey := flagApikey cfg;
  flagGtfsFile := flagGtfsFile cfg;
  flagBrigadesFile := file;
  flagTarget := flagTarget cfg;
  flagJSON := flagJSON cfg;
  flagReadable := flagReadable cfg;
  flagStrict := flagStrict cfg;
  flagLoop := flagLoop cfg;
  flagDataCheck := flagDataCheck cfg
|}.

(** The directory part [path.Join] gives to a file in the directory [t]:
    empty, or the cleaned directory with its slash. *)
Definition directoryOf (t : string) : string :=
  let root := if path.rooted t then "/" else "" in
  match rev (path.walk (path.rooted t) (path.split t) []) with
  | [] => root
  | e :: es => root ++ String.concat "/" (e :: es) ++ "/"
  end.

(** A backend that cannot reach the dataset: retrieving fails. *)
Definition offlineBackend : Backend := {|
  Client := unit;
  Gtfs := list string * list string;
  ZipFile := string;
  RouteMap := list string;
  client := tt;
  nilGtfs := ([], []);
  gtfs_NewGtfsFromURL := fun _ _ => (([], []), Some (errors.New "no route to host"));
  gtfs_NewGtfsFromFile := fun _ => (([], []), Some (errors.New "no such file"));
  gtfs_GetZipFileByName := fun _ _ => None;
  gtfs_LoadRoutes := fun g _ => (g, None);
  gtfs_LoadAll := fun g => (g, None);
  gtfs_Routes := fun g => snd g;
  alerts_Make := fun _ _ _ => None;
  alerts_Loop := fun _ _ _ _ => Forever;
  brigades_Main := fun _ _ _ => None;
  positions_Main := fun _ _ => None
|}.

(** * Properties *)

(** ** Lists and strings *)

Lemma skipn_length_app {A : Type} (l l' : list A) :
  skipn (List.length l) (l ++ l')%list = l'.
Proof. induction l as [|a l IH]; simpl; auto. Qed.

Lemma skipn_length_same {A : Type} (l : list A) :
  skipn (List.length l) l = [].
Proof. induction l as [|a l IH]; simpl; auto. Qed.

(** [String.prefix] decides "begins with". *)
Lemma prefix_begins (p s : string) :
  String.prefix p s = true <-> exists rest, s = p ++ rest.
Proof.
  revert s; induction p as [|c p IH]; intros s; simpl.
  - split; [intros _; exists s; destruct s; reflexivity | destruct s; auto].
  - destruct s as [|d s].
    + split; [discriminate | intros [rest H]; discriminate].
    + change (prefix (String c p) (String d s))
        with (if ascii_dec c d then prefix p s else false).
      destruct (ascii_dec c d) as [Hcd|Hcd].
      * subst d. split.
        -- intros H. apply IH in H. destruct H as [rest H].
           exists rest. now rewrite H.
        -- intros [rest H]. apply IH. exists rest. now inversion H.
      * split; [discriminate | intros [rest H]; inversion H; congruence].
Qed.

Lemma append_assoc (a b c : string) : (a ++ b) ++ c = a ++ b ++ c.
Proof. induction a as [|x a IH]; simpl; congruence. Qed.

Lemma append_not_empty (d x : string) :
  (x =? "") = false -> (d ++ x =? "") = false.
Proof.
  destruct d; simpl; auto.
Qed.

(** ** [path.Join] keeps the file name *)

Lemma split_not_nil (s : string) : path.split s <> [].
Proof.
  destruct s as [|c s]; simpl; [discriminate|].
  destruct (Ascii.eqb c "/"); [discriminate|].
  destruct (path.split s); discriminate.
Qed.

Lemma split_app_slash (a b : string) :
  path.split (a ++ String "/" b) = (path.split a ++ path.split b)%list.
Proof.
  induction a as [|c a IH]; simpl; [reflexivity|].
  destruct (Ascii.eqb c "/").
  - now rewrite IH.
  - rewrite IH. pose proof (split_not_nil a) as Hne.
    destruct (path.split a); [contradiction|reflexivity].
Qed.

Lemma walk_app (r : bool) (l1 l2 out : list string) :
  path.walk r (l1 ++ l2) out = path.walk r l2 (path.walk r l1 out).
Proof.
  revert out; induction l1 as [|e l1 IH]; intros out; simpl; [reflexivity|].
  destruct ((e =? "") || (e =? ".")); [apply IH|].
  destruct (e =? "..").
  - destruct out as [|top below].
    + destruct r; apply IH.
    + destruct (top =? ".."); apply IH.
  - apply IH.
Qed.

Lemma concat_snoc (sep : string) (l : list string) (x : string) :
  exists pre, String.concat sep (l ++ [x]) = pre ++ x.
Proof.
  induction l as [|a l [pre IH]].
  - exists "". reflexivity.
  - exists (a ++ sep ++ pre).
    change ((a :: l) ++ [x])%list with (a :: (l ++ [x]))%list.
    destruct (l ++ [x])%list as [|y ys] eqn:E.
    + destruct l; discriminate.
    + change (String.concat sep (a :: y :: ys))
        with (a ++ sep ++ String.concat sep (y :: ys)).
      rewrite IH. now rewrite !append_assoc.
Qed.

Lemma Clean_keeps_name (p name : string) (l : list string) :
  path.split p = (l ++ [name])%list -> plainName name ->
  exists dir, path.Clean p = dir ++ name.
Proof.
  intros Hsplit (Hone & He & Hd & Hdd).
  unfold path.Clean.
  destruct (String.eqb_spec p "") as [->|Hp].
  - simpl in Hsplit. destruct l as [|a l].
    + inversion Hsplit; subst. discriminate.
    + inversion Hsplit. destruct l; discriminate.
  - rewrite Hsplit, walk_app. cbn [path.walk].
    rewrite He, Hd, Hdd. cbn [orb rev].
    destruct (concat_snoc "/" (rev (path.walk (path.rooted p) l [])) name)
      as [pre Hpre].
    rewrite Hpre, <- append_assoc.
    rewrite append_not_empty by assumption.
    eexists; reflexivity.
Qed.

Lemma Join_clean (t name : string) :
  (name =? "") = false ->
  path.Join [t; name]
  = path.Clean (if t =? "" then name else t ++ "/" ++ name).
Proof.
  intros He. unfold path.Join. cbn [fold_left].
  assert (Hsize : ((0 + String.length t + String.length name =? 0) = false)%nat).
  { apply Nat.eqb_neq. destruct name; [discriminate|]. simpl. lia. }
  rewrite Hsize.
  destruct t as [|c t]; simpl.
  - now rewrite He.
  - now rewrite append_assoc.
Qed.

(** The path built for a file named [name] in the directory [t] ends with
    that name. *)
Lemma Join_keeps_name (t name : string) :
  plainName name -> exists dir, path.Join [t; name] = dir ++ name.
Proof.
  intros Hn. pose proof Hn as (Hone & He & _).
  rewrite Join_clean by assumption.
  destruct (t =? "").
  - apply Clean_keeps_name with (l := []); assumption.
  - apply Clean_keeps_name with (l := path.split t); [|assumption].
    change (t ++ "/" ++ name) with (t ++ String "/" name).
    now rewrite split_app_slash, Hone.
Qed.

Section LauncherFacts.
Context {B : Backend}.

(** Unfolds the state passing of a launcher function. *)
Ltac unfold_calls :=
  cbv beta delta
    [bind ret emit getGtfs setGtfs log_Println returning
     call_NewGtfsFromURL call_NewGtfsFromFile call_GetZipFileByName
     call_LoadRoutes call_LoadAll call_alerts_Make call_alerts_Loop
     call_brigades_Main call_positions_Main];
  cbn [fst snd gtfsFile trace].

(** *** [checkModes] *)

Lemma checkModes_state (cfg : Flags) (s : State) :
  snd (checkModes cfg s) = s.
Proof.
  unfold checkModes.
  destruct (flagAlerts cfg), (flagBrigades cfg), (flagPostions cfg);
    reflexivity.
Qed.

Lemma checkModes_result (cfg : Flags) (s : State) :
  fst (checkModes cfg s) =
  if (intents cfg =? 1)%nat then None
  else Some (errors.New
               "exactly one of the -a, -b or -p flags has to be provided").
Proof.
  unfold checkModes, intents.
  destruct (flagAlerts cfg), (flagBrigades cfg), (flagPostions cfg);
    reflexivity.
Qed.

Lemma checkModes_run (cfg : Flags) (s : State) :
  checkModes cfg s =
  (if (intents cfg =? 1)%nat then None
   else Some (errors.New
                "exactly one of the -a, -b or -p flags has to be provided"),
   s).
Proof.
  rewrite <- checkModes_result with (s := s).
  rewrite <- checkModes_state with (cfg := cfg) at 3.
  now destruct (checkModes cfg s).
Qed.

(** C2: [checkModes] returns an error exactly when the number of mode
    flags that are set differs from one (and then the error is the
    "exactly one of the -a, -b or -p flags" one), returns no error when
    exactly one is set, and leaves the state of the process as it
    was: no global changes, nothing is logged or called. *)
Theorem checkModes_exactly_one (cfg : Flags) (s : State) :
  ((exists err, fst (checkModes cfg s) = Some err) <-> intents cfg <> 1%nat)
  /\ (fst (checkModes cfg s) = None <-> intents cfg = 1%nat)
  /\ fst (checkModes cfg s) =
     (if (intents cfg =? 1)%nat then None
      else Some (errors.New
                   "exactly one of the -a, -b or -p flags has to be provided"))
  /\ snd (checkModes cfg s) = s.
Proof.
  rewrite checkModes_run; cbn [fst snd].
  destruct (Nat.eqb_spec (intents cfg) 1) as [E|E].
  - repeat split; auto; try congruence.
    intros [err H]; discriminate.
  - repeat split; auto; try congruence.
    eexists; reflexivity.
Qed.

Lemma after_nil (s : State) : after s (gtfsFile s) [] = s.
Proof. destruct s; unfold after; simpl. now rewrite app_nil_r. Qed.

Lemma events_after {A : Type} (m : M A) (s : State) (a : A) (g : Gtfs)
  (l : list Event) :
  m s = (a, after s g l) -> events m s = l.
Proof.
  intros H. unfold events. rewrite H. simpl. apply skipn_length_app.
Qed.

Lemma events_same {A : Type} (m : M A) (s : State) (a : A) :
  m s = (a, s) -> events m s = [].
Proof.
  intros H. unfold events. rewrite H. simpl. apply skipn_length_same.
Qed.

(** *** What each function does, as one equation *)

Lemma loadGtfs_run (cfg : Flags) (s : State) :
  loadGtfs cfg s =
  let r := retrieved cfg in
  let begun := [Println "Retrieving provided GTFS"; retrieval cfg] in
  match snd r with
  | Some err => (Some err, after s (fst r) begun)
  | None =>
      if flagAlerts cfg then
        match gtfs_GetZipFileByName (fst r) "routes.txt" with
        | Some routesFile =>
            (snd (gtfs_LoadRoutes (fst r) routesFile),
             after s (fst (gtfs_LoadRoutes (fst r) routesFile))
               (begun ++ [Println "Loading routes.txt";
                          GetZipFileByName "routes.txt";
                          LoadRoutes routesFile]))
        | None =>
            (Some (errors.New "no file routes.txt in the GTFS"),
             after s (fst r)
               (begun ++ [Println "Loading routes.txt";
                          GetZipFileByName "routes.txt"]))
        end
      else
        (snd (gtfs_LoadAll (fst r)),
         after s (fst (gtfs_LoadAll (fst r)))
           (begun ++ [Println "Loading data from the GTFS"; LoadAll]))
  end.
Proof.
  unfold loadGtfs, retrieved, retrieval, after, networkAddressed,
    strings.HasPrefix.
  destruct (prefix "http://" (flagGtfsFile cfg)
            || prefix "https://" (flagGtfsFile cfg)); unfold_calls.
  - destruct (snd (gtfs_NewGtfsFromURL (flagGtfsFile cfg) client)); unfold_calls.
    + now rewrite <- !app_assoc.
    + destruct (flagAlerts cfg); unfold_calls.
      * destruct (gtfs_GetZipFileByName _ "routes.txt"); unfold_calls;
          now rewrite <- !app_assoc.
      * now rewrite <- !app_assoc.
  - destruct (snd (gtfs_NewGtfsFromFile (flagGtfsFile cfg))); unfold_calls.
    + now rewrite <- !app_assoc.
    + destruct (flagAlerts cfg); unfold_calls.
      * destruct (gtfs_GetZipFileByName _ "routes.txt"); unfold_calls;
          now rewrite <- !app_assoc.
      * now rewrite <- !app_assoc.
Qed.

Lemma mainAlerts_run (cfg : Flags) (s : State) :
  mainAlerts cfg s =
  (alerts_Make client (gtfs_Routes (gtfsFile s)) (alertsBundle cfg),
   after s (gtfsFile s)
     [Println "Creating Alerts feed";
      AlertsMake client (gtfs_Routes (gtfsFile s)) (alertsBundle cfg)]).
Proof.
  unfold mainAlerts, alertsBundle, after, alerts.set_JSONTarget.
  destruct (flagJSON cfg); unfold_calls; now rewrite <- !app_assoc.
Qed.

Lemma loopAlerts_run (cfg : Flags) (s : State) :
  loopAlerts cfg s =
  (alerts_Loop client (resourceFor cfg) (flagLoop cfg) (alertsBundle cfg),
   after s (gtfsFile s)
     [AlertsLoop client (resourceFor cfg) (flagLoop cfg) (alertsBundle cfg)]).
Proof.
  unfold loopAlerts, alertsBundle, resourceFor, after, networkAddressed,
    alerts.set_JSONTarget, strings.HasPrefix.
  destruct (flagJSON cfg); unfold_calls; reflexivity.
Qed.

Lemma mainBrigades_run (cfg : Flags) (s : State) :
  mainBrigades cfg s =
  if flagApikey cfg =? "" then
    (Some (errors.New "Key for api.um.warszawa.pl needs to be provided"), s)
  else
    (brigades_Main client (gtfsFile s) (brigadesBundle cfg),
     after s (gtfsFile s)
       [Println "Creating brigades.json";
        BrigadesMain client (gtfsFile s) (brigadesBundle cfg)]).
Proof.
  unfold mainBrigades, brigadesBundle, after.
  destruct (flagApikey cfg =? ""); unfold_calls; auto.
  now rewrite <- !app_assoc.
Qed.

Lemma mainPositions_run (cfg : Flags) (s : State) :
  mainPositions cfg s =
  if flagApikey cfg =? "" then
    (Some (errors.New "Key for api.um.warszawa.pl needs to be provided"), s)
  else
    (positions_Main client (positionsBundle cfg),
     after s (gtfsFile s)
       [Println "Creating brigades.json";
        PositionsMain client (positionsBundle cfg)]).
Proof.
  unfold mainPositions, positionsBundle, after, positions.set_JSONTarget.
  destruct (flagApikey cfg =? ""); unfold_calls; auto.
  destruct (flagJSON cfg); unfold_calls; now rewrite <- !app_assoc.
Qed.

(** *** [main] *)

Lemma main_fatal_modes (cfg : Flags) (s : State) :
  intents cfg <> 1%nat ->
  main cfg s =
  (Fatal "exactly one of the -a, -b or -p flags has to be provided", s).
Proof.
  intros H. unfold main, bind. rewrite checkModes_run.
  apply Nat.eqb_neq in H. now rewrite H.
Qed.

(** C1 (amended): when the loop cadence is positive and the one mode that
    is selected is not Alerts, [main] ends with the error "loop mode is
    only available for alerts" and the process state is untouched:
    nothing was logged, no package was called, the static GTFS was
    neither retrieved nor loaded. *)
Theorem loop_mode_only_for_alerts (cfg : Flags) (s : State) :
  (0 < flagLoop cfg)%Z ->
  intents cfg = 1%nat ->
  flagAlerts cfg = false ->
  main cfg s = (Fatal "loop mode is only available for alerts", s)
  /\ events (main cfg) s = []
  /\ existsb loads (events (main cfg) s) = false.
Proof.
  intros Hloop Hone Ha.
  assert (Hrun : main cfg s
                 = (Fatal "loop mode is only available for alerts", s)).
  { unfold main, bind. rewrite checkModes_run, Hone, Ha.
    apply Z.gtb_lt in Hloop. rewrite Hloop.
    rewrite andb_false_r. reflexivity. }
  assert (Hev : events (main cfg) s = []) by now apply events_same in Hrun.
  rewrite Hev. auto.
Qed.

Lemma main_positions_run (cfg : Flags) (s : State) :
  flagPostions cfg = true ->
  main cfg s =
  if negb (intents cfg =? 1)%nat then
    (Fatal "exactly one of the -a, -b or -p flags has to be provided", s)
  else if (flagLoop cfg >? 0)%Z then
    (Fatal "loop mode is only available for alerts", s)
  else if flagApikey cfg =? "" then
    (Fatal "Key for api.um.warszawa.pl needs to be provided", s)
  else
    (match positions_Main client (positionsBundle cfg) with
     | Some err => Fatal (errors.Error err)
     | None => Exit
     end,
     after s (gtfsFile s)
       [Println "Creating brigades.json";
        PositionsMain client (positionsBundle cfg)]).
Proof.
  intros Hp.
  destruct (Nat.eqb_spec (intents cfg) 1) as [Hone|Hne]; cbn [negb].
  2: now apply main_fatal_modes.
  assert (Ha : flagAlerts cfg = false /\ flagBrigades cfg = false).
  { unfold intents in Hone. rewrite Hp in Hone.
    destruct (flagAlerts cfg), (flagBrigades cfg); simpl in Hone;
      auto; discriminate. }
  destruct Ha as [Ha Hb].
  unfold main, bind. rewrite checkModes_run, Hone, Hp, Ha, Hb.
  cbn [Nat.eqb negb andb ret].
  destruct (flagLoop cfg >? 0)%Z; [reflexivity|].
  unfold returning, bind. rewrite mainPositions_run.
  destruct (flagApikey cfg =? ""); [reflexivity|].
  unfold ret. now destruct (positions_Main client (positionsBundle cfg)).
Qed.

(** C5: with the Positions flag set, whatever the rest of the command
    line, [main] never retrieves or loads the static dataset (no such
    event, [gtfsFile] keeps its value, and the run does not depend on
    [-gtfs-file]); the only generation call it can make is
    [positions.Main], made when Positions is the one mode, the cadence
    is not positive and a key is given, with a bundle whose input is the
    brigades file location. *)
Theorem positions_never_load_gtfs (cfg : Flags) (s : State) :
  flagPostions cfg = true ->
  gtfsFile (snd (main cfg s)) = gtfsFile s
  /\ existsb loads (events (main cfg) s) = false
  /\ (forall file, main (withGtfsFile file cfg) s = main cfg s)
  /\ filter generates (events (main cfg) s) =
     (if (intents cfg =? 1)%nat && negb (flagLoop cfg >? 0)%Z
         && negb (flagApikey cfg =? "")
      then [PositionsMain client (positionsBundle cfg)] else [])
  /\ positions.Brigades (positionsBundle cfg) = flagBrigadesFile cfg.
Proof.
  intros Hp. split; [|split; [|split; [|split]]].
  - rewrite main_positions_run by assumption.
    destruct (negb (intents cfg =? 1)%nat), (flagLoop cfg >? 0)%Z,
      (flagApikey cfg =? ""); reflexivity.
  - pose proof (main_positions_run cfg s Hp) as H.
    destruct (negb (intents cfg =? 1)%nat), (flagLoop cfg >? 0)%Z,
      (flagApikey cfg =? "");
      first [apply events_same in H | apply events_after in H];
      rewrite H; reflexivity.
  - intros file. rewrite !main_positions_run by assumption. reflexivity.
  - pose proof (main_positions_run cfg s Hp) as H.
    destruct (intents cfg =? 1)%nat, (flagLoop cfg >? 0)%Z,
      (flagApikey cfg =? ""); cbn [negb andb] in *;
      first [apply events_same in H | apply events_after in H];
      rewrite H; reflexivity.
  - reflexivity.
Qed.

(** *** The entry points *)

(** C6: with an empty key, [mainBrigades] and [mainPositions] return the
    error "Key for api.um.warszawa.pl needs to be provided" and leave the
    process state as it was, so neither [brigades.Main] nor
    [positions.Main] is called; the alerts entry points do not look at
    the key: they behave the same for every key and call the alerts
    package also when it is empty. *)
Theorem empty_key_is_refused (cfg : Flags) (s : State) :
  flagApikey cfg = "" ->
  mainBrigades cfg s =
    (Some (errors.New "Key for api.um.warszawa.pl needs to be provided"), s)
  /\ mainPositions cfg s =
    (Some (errors.New "Key for api.um.warszawa.pl needs to be provided"), s)
  /\ filter generates (events (mainBrigades cfg) s) = []
  /\ filter generates (events (mainPositions cfg) s) = []
  /\ (forall k, mainAlerts (withApikey k cfg) s = mainAlerts cfg s)
  /\ (forall k, loopAlerts (withApikey k cfg) s = loopAlerts cfg s)
  /\ filter generates (events (mainAlerts cfg) s) =
     [AlertsMake client (gtfs_Routes (gtfsFile s)) (alertsBundle cfg)]
  /\ filter generates (events (loopAlerts cfg) s) =
     [AlertsLoop client (resourceFor cfg) (flagLoop cfg) (alertsBundle cfg)].
Proof.
  intros Hk.
  assert (Hb : mainBrigades cfg s =
    (Some (errors.New "Key for api.um.warszawa.pl needs to be provided"), s))
    by (rewrite mainBrigades_run, Hk; reflexivity).
  assert (Hp : mainPositions cfg s =
    (Some (errors.New "Key for api.um.warszawa.pl needs to be provided"), s))
    by (rewrite mainPositions_run, Hk; reflexivity).
  split; [exact Hb|]. split; [exact Hp|].
  split; [apply events_same in Hb; now rewrite Hb|].
  split; [apply events_same in Hp; now rewrite Hp|].
  split; [intros k; now rewrite !mainAlerts_run|].
  split; [intros k; now rewrite !loopAlerts_run|].
  split.
  - now rewrite (events_after _ _ _ _ _ (mainAlerts_run cfg s)).
  - now rewrite (events_after _ _ _ _ _ (loopAlerts_run cfg s)).
Qed.

(** *** Loading and source selection *)

Lemma networkAddressed_begins (location : string) :
  networkAddressed location = true <->
  exists rest, location = "http://" ++ rest \/ location = "https://" ++ rest.
Proof.
  unfold networkAddressed. rewrite orb_true_iff, !prefix_begins.
  split.
  - intros [[rest H]|[rest H]]; exists rest; auto.
  - intros [rest [H|H]]; [left|right]; exists rest; auto.
Qed.

Lemma loadGtfs_retrieves (cfg : Flags) (s : State) :
  filter retrieves (events (loadGtfs cfg) s) = [retrieval cfg].
Proof.
  pose proof (loadGtfs_run cfg s) as H. cbv zeta in H.
  assert (Hr : retrieves (retrieval cfg) = true)
    by (unfold retrieval; now destruct (networkAddressed _)).
  destruct (snd (retrieved cfg)).
  2: destruct (flagAlerts cfg).
  2: destruct (gtfs_GetZipFileByName (fst (retrieved cfg)) "routes.txt").
  all: apply events_after in H; rewrite H; cbn [filter app retrieves];
    now rewrite Hr.
Qed.

(** C7: a location counts as network-addressed exactly when it begins
    with [http://] or [https://] (and as a file path otherwise); that one
    test picks the loader in [loadGtfs] ([NewGtfsFromURL] against
    [NewGtfsFromFile], called once) and the resource given to
    [alerts.Loop] ([ResourceHTTP] against [ResourceLocal]), which is a
    value built once with that variant. *)
Theorem source_selection (cfg : Flags) (s : State) :
  (networkAddressed (flagGtfsFile cfg) = true <->
   exists rest, flagGtfsFile cfg = "http://" ++ rest
                \/ flagGtfsFile cfg = "https://" ++ rest)
  /\ filter retrieves (events (loadGtfs cfg) s) =
     [if networkAddressed (flagGtfsFile cfg)
      then NewGtfsFromURL (flagGtfsFile cfg) client
      else NewGtfsFromFile (flagGtfsFile cfg)]
  /\ pick loopResource (events (loopAlerts cfg) s) =
     [if networkAddressed (flagGtfsFile cfg)
      then util.ResourceHTTP client (flagGtfsFile cfg) (flagDataCheck cfg)
      else util.ResourceLocal (flagGtfsFile cfg) (flagDataCheck cfg)].
Proof.
  split; [apply networkAddressed_begins|]. split.
  - apply loadGtfs_retrieves.
  - now rewrite (events_after _ _ _ _ _ (loopAlerts_run cfg s)).
Qed.

(** C4: once the container is retrieved, [loadGtfs] in Alerts mode looks
    for [routes.txt] and loads the routes only ([LoadRoutes], never
    [LoadAll]), and when the container has no [routes.txt] it loads no
    table and returns the error "no file routes.txt in the GTFS"; when
    the Alerts flag is not set it loads the whole dataset with
    [LoadAll]. *)
Theorem loadGtfs_tables (cfg : Flags) (s : State) (g : Gtfs) :
  retrieved cfg = (g, None) ->
  if flagAlerts cfg then
    match gtfs_GetZipFileByName g "routes.txt" with
    | None =>
        fst (loadGtfs cfg s)
        = Some (errors.New "no file routes.txt in the GTFS")
        /\ filter loadsTables (events (loadGtfs cfg) s) = []
        /\ gtfsFile (snd (loadGtfs cfg s)) = g
    | Some routesFile =>
        fst (loadGtfs cfg s) = snd (gtfs_LoadRoutes g routesFile)
        /\ filter loadsTables (events (loadGtfs cfg) s)
           = [LoadRoutes routesFile]
        /\ gtfsFile (snd (loadGtfs cfg s))
           = fst (gtfs_LoadRoutes g routesFile)
    end
  else
    fst (loadGtfs cfg s) = snd (gtfs_LoadAll g)
    /\ filter loadsTables (events (loadGtfs cfg) s) = [LoadAll]
    /\ gtfsFile (snd (loadGtfs cfg s)) = fst (gtfs_LoadAll g).
Proof.
  intros Hr.
  pose proof (loadGtfs_run cfg s) as H. cbv zeta in H.
  rewrite Hr in H. cbn [fst snd] in H.
  assert (Hl : loadsTables (retrieval cfg) = false)
    by (unfold retrieval; now destruct (networkAddressed _)).
  destruct (flagAlerts cfg).
  1: destruct (gtfs_GetZipFileByName g "routes.txt").
  all: rewrite (events_after _ _ _ _ _ H), H;
    cbn [fst snd gtfsFile after filter app loadsTables];
    rewrite Hl; auto.
Qed.

(** *** The option bundles *)

(** C10: for every command line, the options [mainAlerts] hands to
    [alerts.Make] and the options [loopAlerts] hands to [alerts.Loop] are
    the same structure, with the same [GtfsRtTarget], [HumanReadable],
    [ThrowLinkErrors] and [JSONTarget]. *)
Theorem alerts_options_agree (cfg : Flags) (s1 s2 : State) :
  pick alertsOptions (events (mainAlerts cfg) s1)
  = pick alertsOptions (events (loopAlerts cfg) s2)
  /\ pick alertsOptions (events (mainAlerts cfg) s1) =
     [{| alerts.GtfsRtTarget := path.Join [flagTarget cfg; "alerts.pb"];
         alerts.JSONTarget :=
           if flagJSON cfg then path.Join [flagTarget cfg; "alerts.json"]
           else "";
         alerts.HumanReadable := flagReadable cfg;
         alerts.ThrowLinkErrors := flagStrict cfg |}].
Proof.
  rewrite (events_after _ _ _ _ _ (mainAlerts_run cfg s1)).
  rewrite (events_after _ _ _ _ _ (loopAlerts_run cfg s2)).
  split; reflexivity.
Qed.

Lemma plain_alerts_pb : plainName "alerts.pb".
Proof. repeat split. Qed.

Lemma plain_positions_pb : plainName "positions.pb".
Proof. repeat split. Qed.

Lemma plain_brigades_json : plainName "brigades.json".
Proof. repeat split. Qed.

(** C3 (amended): the primary feed path built for Alerts (one-shot and
    loop) is [path.Join(target, "alerts.pb")] and the one built for
    Positions is [path.Join(target, "positions.pb")]: a path that ends
    with that file name, the same whatever the readable flag, which
    travels apart in [HumanReadable]; [mainBrigades] builds one path
    only, [path.Join(target, "brigades.json")]. *)
Theorem output_paths (cfg : Flags) (s : State) :
  map alerts.GtfsRtTarget (pick alertsOptions (events (mainAlerts cfg) s))
    = [path.Join [flagTarget cfg; "alerts.pb"]]
  /\ map alerts.GtfsRtTarget (pick alertsOptions (events (loopAlerts cfg) s))
    = [path.Join [flagTarget cfg; "alerts.pb"]]
  /\ map alerts.HumanReadable (pick alertsOptions (events (mainAlerts cfg) s))
    = [flagReadable cfg]
  /\ map positions.GtfsRtTarget
       (pick positionsOptions (events (mainPositions cfg) s))
    = (if flagApikey cfg =? "" then []
       else [path.Join [flagTarget cfg; "positions.pb"]])
  /\ map positions.HumanReadable
       (pick positionsOptions (events (mainPositions cfg) s))
    = (if flagApikey cfg =? "" then [] else [flagReadable cfg])
  /\ (forall r,
        map alerts.GtfsRtTarget
          (pick alertsOptions (events (mainAlerts (withReadable r cfg)) s))
        = [path.Join [flagTarget cfg; "alerts.pb"]]
        /\ map positions.GtfsRtTarget
             (pick positionsOptions
                (events (mainPositions (withReadable r cfg)) s))
           = (if flagApikey cfg =? "" then []
              else [path.Join [flagTarget cfg; "positions.pb"]]))
  /\ (exists dir, path.Join [flagTarget cfg; "alerts.pb"] = dir ++ "alerts.pb")
  /\ (exists dir,
        path.Join [flagTarget cfg; "positions.pb"] = dir ++ "positions.pb")
  /\ filter generates (events (mainBrigades cfg) s)
    = (if flagApikey cfg =? "" then []
       else [BrigadesMain client (gtfsFile s)
               {| brigades.JSONTarget :=
                    path.Join [flagTarget cfg; "brigades.json"];
                  brigades.Apikey := flagApikey cfg;
                  brigades.ThrowAPIErrors := flagStrict cfg |}])
  /\ (exists dir,
        path.Join [flagTarget cfg; "brigades.json"] = dir ++ "brigades.json").
Proof.
  assert (Hpos : forall c,
    pick positionsOptions (events (mainPositions c) s)
    = if flagApikey c =? "" then [] else [positionsBundle c]).
  { intros c. pose proof (mainPositions_run c s) as H.
    destruct (flagApikey c =? "");
      first [apply events_same in H | apply events_after in H];
      now rewrite H. }
  split; [now rewrite (events_after _ _ _ _ _ (mainAlerts_run cfg s))|].
  split; [now rewrite (events_after _ _ _ _ _ (loopAlerts_run cfg s))|].
  split; [now rewrite (events_after _ _ _ _ _ (mainAlerts_run cfg s))|].
  split; [rewrite Hpos; now destruct (flagApikey cfg =? "")|].
  split; [rewrite Hpos; now destruct (flagApikey cfg =? "")|].
  split.
  { intros r. split.
    - now rewrite (events_after _ _ _ _ _ (mainAlerts_run _ s)).
    - rewrite Hpos. cbn [withReadable flagApikey].
      now destruct (flagApikey cfg =? ""). }
  split; [apply Join_keeps_name, plain_alerts_pb|].
  split; [apply Join_keeps_name, plain_positions_pb|].
  split; [|apply Join_keeps_name, plain_brigades_json].
  pose proof (mainBrigades_run cfg s) as H.
  destruct (flagApikey cfg =? "");
    first [apply events_same in H | apply events_after in H];
    now rewrite H.
Qed.

End LauncherFacts.

(** C8: the option bundles are a function of the configuration alone: two
    command lines that agree on the target directory, the readable, JSON and
    strict flags, the key and the input locations hand field-for-field equal
    options to the generation packages, whatever the state of the process
    and whatever the packages do. *)
Theorem options_deterministic (B1 B2 : Backend) (c1 c2 : Flags)
  (s1 : @State B1) (s2 : @State B2) :
  sameConfiguration c1 c2 ->
  pick (B := B1) alertsOptions (events (B := B1) (mainAlerts c1) s1)
  = pick (B := B2) alertsOptions (events (B := B2) (mainAlerts c2) s2)
  /\ pick (B := B1) alertsOptions (events (B := B1) (loopAlerts c1) s1)
     = pick (B := B2) alertsOptions (events (B := B2) (loopAlerts c2) s2)
  /\ pick (B := B1) brigadesOptions (events (B := B1) (mainBrigades c1) s1)
     = pick (B := B2) brigadesOptions (events (B := B2) (mainBrigades c2) s2)
  /\ pick (B := B1) positionsOptions (events (B := B1) (mainPositions c1) s1)
     = pick (B := B2) positionsOptions (events (B := B2) (mainPositions c2) s2).
Proof.
  intros (Ht & Hr & Hj & Hs & Hk & Hg & Hb).
  assert (Ha : alertsBundle c1 = alertsBundle c2)
    by (unfold alertsBundle; now rewrite Ht, Hr, Hj, Hs).
  assert (Hbr : brigadesBundle c1 = brigadesBundle c2)
    by (unfold brigadesBundle; now rewrite Ht, Hs, Hk).
  assert (Hp : positionsBundle c1 = positionsBundle c2)
    by (unfold positionsBundle; now rewrite Ht, Hr, Hj, Hk, Hb).
  split; [|split; [|split]].
  - rewrite (events_after _ _ _ _ _ (mainAlerts_run (B := B1) c1 s1)).
    rewrite (events_after _ _ _ _ _ (mainAlerts_run (B := B2) c2 s2)).
    cbn [pick alertsOptions]. now rewrite Ha.
  - rewrite (events_after _ _ _ _ _ (loopAlerts_run (B := B1) c1 s1)).
    rewrite (events_after _ _ _ _ _ (loopAlerts_run (B := B2) c2 s2)).
    cbn [pick alertsOptions]. now rewrite Ha.
  - pose proof (mainBrigades_run (B := B1) c1 s1) as H1.
    pose proof (mainBrigades_run (B := B2) c2 s2) as H2.
    rewrite <- Hk in H2.
    destruct (flagApikey c1 =? "");
      first [apply events_same in H1 | apply events_after in H1];
      first [apply events_same in H2 | apply events_after in H2];
      rewrite H1, H2; cbn [pick brigadesOptions]; now rewrite ?Hbr.
  - pose proof (mainPositions_run (B := B1) c1 s1) as H1.
    pose proof (mainPositions_run (B := B2) c2 s2) as H2.
    rewrite <- Hk in H2.
    destruct (flagApikey c1 =? "");
      first [apply events_same in H1 | apply events_after in H1];
      first [apply events_same in H2 | apply events_after in H2];
      rewrite H1, H2; cbn [pick positionsOptions]; now rewrite ?Hp.
Qed.

(** ** The loop driver: cycles do not overlap *)

Section LoopDriverFacts.
Import LoopDriver.
Local Open Scope list_scope.

Lemma invariant_start : invariant start.
Proof.
  unfold invariant, start, current, closed; simpl. intuition.
Qed.

(** Recording a mark that is not behind the clock keeps the marks in
    order. *)
Lemma descending_cons (m : Mark) (l : list Mark) (c : nat) :
  descending l -> (forall x, In x l -> key x < c) -> c <= key m ->
  descending (m :: l).
Proof.
  intros Hd Hb Hc. split; [|exact Hd].
  intros x Hx. specialize (Hb x Hx). lia.
Qed.

Lemma closed_cons (m : Mark) (l : list Mark) (c : nat) :
  closed l -> (forall x, In x l -> key x < c) -> c <= key m ->
  (forall n, m = CheckBegins (S n) ->
     In (CheckBegins n) l /\ In (CheckEnds n) l
     /\ (In (RegenerationBegins n) l -> In (RegenerationEnds n) l)) ->
  closed (m :: l).
Proof.
  intros Hcl Hb Hc Hnew n [Heq|Hin].
  - destruct (Hnew n Heq) as (H1 & H2 & H3).
    repeat split; try (right; assumption).
    intros [Hr|Hr]; [subst m; discriminate|right; auto].
  - destruct (Hcl n Hin) as (H1 & H2 & H3).
    repeat split; try (right; assumption).
    intros [Hr|Hr]; [|right; auto].
    specialize (Hb _ Hin). subst m. simpl in *. lia.
Qed.

Ltac older Hb :=
  let m := fresh "m" in let Hm := fresh "Hm" in
  intros m Hm; specialize (Hb m Hm); lia.
Ltac newer Hb :=
  let m := fresh "m" in let Hm := fresh "Hm" in
  intros m [<-|Hm]; [simpl; lia | specialize (Hb m Hm); lia].

Lemma invariant_step (E : Env) (d : Driver) :
  invariant d -> invariant (step E d).
Proof.
  destruct d as [p c l].
  unfold invariant, step, current, clock, goto, record; cbn [phase cycle marks].
  intros (Hd & Hb & Hc & Hcl).
  destruct p; cbn [phase cycle marks] in *.
  - (* Idle *)
    subst c.
    split; [apply (descending_cons _ _ _ Hd Hb); simpl; lia|].
    split; [newer Hb|].
    split; [now left|].
    apply (closed_cons _ _ _ Hcl Hb); [simpl; lia|].
    intros n Hn. discriminate.
  - (* Checking *)
    destruct (check E c); [| |destruct (strict E)|]; cbn [phase cycle marks].
    all: try (split; [assumption|split; [older Hb|split; [exact I|assumption]]]).
    all: split; [apply (descending_cons _ _ _ Hd Hb); simpl; lia|].
    all: split; [newer Hb|].
    all: split; [split; [now right|now left]|].
    all: apply (closed_cons _ _ _ Hcl Hb); [simpl; lia|intros n Hn; discriminate].
  - (* Unchanged *)
    split; [assumption|]. split; [older Hb|]. split; [|assumption].
    destruct Hc as [H1 H2]. repeat split; auto.
    intros H. apply Hb in H. simpl in H. lia.
  - (* Changed *)
    destruct Hc as [H1 H2].
    split; [apply (descending_cons _ _ _ Hd Hb); simpl; lia|].
    split; [newer Hb|].
    split; [repeat split; [now right|now right|now left]|].
    apply (closed_cons _ _ _ Hcl Hb); [simpl; lia|intros n Hn; discriminate].
  - (* Regenerating *)
    destruct Hc as (H1 & H2 & H3).
    destruct (regenerationSucceeds E c || negb (strict E) && continueAfterFailure E);
      cbn [phase cycle marks].
    + split; [apply (descending_cons _ _ _ Hd Hb); simpl; lia|].
      split; [newer Hb|].
      split; [repeat split; [now right|now right|intros _; now left]|].
      apply (closed_cons _ _ _ Hcl Hb); [simpl; lia|intros n Hn; discriminate].
    + split; [assumption|split; [older Hb|split; [exact I|assumption]]].
  - (* Sleeping *)
    destruct Hc as (H1 & H2 & H3).
    split; [apply (descending_cons _ _ _ Hd Hb); simpl; lia|].
    split; [newer Hb|].
    split; [now left|].
    apply (closed_cons _ _ _ Hcl Hb); [simpl; lia|].
    intros n Hn. inversion Hn; subst. auto.
  - (* Terminated *)
    auto.
Qed.

Lemma invariant_run (E : Env) (k : nat) : invariant (run E k).
Proof.
  induction k as [|k IH]; simpl.
  - apply invariant_start.
  - now apply invariant_step.
Qed.

Lemma before_snoc (a b m : Mark) (l : list Mark) :
  before a b l -> before a b (l ++ [m]).
Proof.
  intros (l1 & l2 & l3 & ->). exists l1, l2, (l3 ++ [m]).
  now rewrite <- !app_assoc, <- !app_comm_cons, <- !app_assoc.
Qed.

Lemma descending_before (a b : Mark) (l : list Mark) :
  descending l -> In a l -> In b l -> key a < key b ->
  before a b (rev l).
Proof.
  induction l as [|m l IH]; [intros _ []|].
  intros [Hm Hd] Ha Hb Hk. cbn [rev].
  destruct Hb as [->|Hb].
  - destruct Ha as [->|Ha]; [lia|].
    apply in_split in Ha. destruct Ha as (l1 & l2 & ->).
    exists (rev l2), (rev l1), [].
    rewrite rev_app_distr. cbn [rev].
    now rewrite <- !app_assoc.
  - destruct Ha as [->|Ha].
    + specialize (Hm b Hb). lia.
    + apply before_snoc. auto.
Qed.

Lemma descending_NoDup (l : list Mark) : descending l -> NoDup l.
Proof.
  induction l as [|m l IH]; [constructor|].
  intros [Hm Hd]. constructor; auto.
  intros Hin. specialize (Hm m Hin). lia.
Qed.

Lemma closed_down (l : list Mark) (n n' : nat) :
  closed l -> n <= n' -> In (CheckBegins n') l -> In (CheckBegins n) l.
Proof.
  intros Hcl. induction n' as [|m IH]; intros Hle Hin.
  - now replace n with 0 by lia.
  - destruct (Nat.eq_dec n (S m)) as [->|Hne]; [assumption|].
    apply IH; [lia|]. now destruct (Hcl m Hin).
Qed.

Lemma run_steps (E : Env) (j k : nat) :
  run E (j + k) = steps E j (run E k).
Proof. induction j as [|j IH]; simpl; congruence. Qed.

(** From one check to the next: three transitions when the content is
    unchanged, four when it changed. *)
Lemma next_check (E : Env) (d : Driver) :
  healthy E -> phase d = Checking ->
  exists j, phase (steps E j d) = Checking
            /\ cycle (steps E j d) = S (cycle d)
            /\ In (CheckBegins (S (cycle d))) (marks (steps E j d)).
Proof.
  intros Hh Hp. destruct d as [p c l]. cbn [phase cycle] in *. subst p.
  destruct (Hh c) as [[Hc|Hc] Hr].
  - exists 3. unfold steps, step; cbn [phase cycle marks goto record].
    rewrite Hc; cbn [phase cycle marks goto record]. auto with datatypes.
  - exists 4. unfold steps, step; cbn [phase cycle marks goto record].
    rewrite Hc; cbn [phase cycle marks goto record].
    rewrite Hr; cbn [orb phase cycle marks goto record]. auto with datatypes.
Qed.

(** When nothing fails the loop goes on for ever: the check of every
    cycle begins. *)
Lemma every_cycle_begins (E : Env) (n : nat) :
  healthy E ->
  exists k, phase (run E k) = Checking /\ cycle (run E k) = n
            /\ In (CheckBegins n) (history E k).
Proof.
  intros Hh. induction n as [|n (k & Hp & Hc & _)].
  - exists 1. unfold history. simpl. auto.
  - destruct (next_check E (run E k) Hh Hp) as (j & Hp' & Hc' & Hin).
    exists (j + k). unfold history. rewrite run_steps, <- in_rev.
    rewrite Hc in *. auto.
Qed.

(** C9: in every run of the loop driver, once the check of a later cycle
    [n'] has begun, the cycle [n] before it is over: its check began and
    ended before that check, a regeneration it triggered began after its
    check, ended, and ended before the later check (so before a
    regeneration of the later cycle too), every mark of the cycle [n] is
    recorded before the later check begins, and no boundary is recorded
    twice. *)
Theorem cycles_do_not_overlap (E : Env) (k n n' : nat) :
  n < n' ->
  In (CheckBegins n') (history E k) ->
  before (CheckBegins n) (CheckEnds n) (history E k)
  /\ before (CheckEnds n) (CheckBegins n') (history E k)
  /\ (In (RegenerationBegins n) (history E k) ->
      before (CheckEnds n) (RegenerationBegins n) (history E k)
      /\ before (RegenerationBegins n) (RegenerationEnds n) (history E k)
      /\ before (RegenerationEnds n) (CheckBegins n') (history E k))
  /\ (In (RegenerationBegins n) (history E k) ->
      In (RegenerationBegins n') (history E k) ->
      before (RegenerationEnds n) (RegenerationBegins n') (history E k))
  /\ (forall m, In m (history E k) -> key m < key (CheckBegins (S n)) ->
      before m (CheckBegins n') (history E k))
  /\ NoDup (history E k).
Proof.
  unfold history. intros Hlt Hlater. apply in_rev in Hlater.
  destruct (invariant_run E k) as (Hd & _ & _ & Hcl).
  assert (Hnext : In (CheckBegins (S n)) (marks (run E k)))
    by (apply closed_down with (n' := n'); auto; lia).
  destruct (Hcl n Hnext) as (Hb & He & Hr).
  split; [apply descending_before; auto; simpl; lia|].
  split; [apply descending_before; auto; simpl; lia|].
  split; [|split; [|split]].
  - intros Hrb. apply in_rev in Hrb. specialize (Hr Hrb).
    repeat split; apply descending_before; auto; simpl; lia.
  - intros Hrb Hrb'. apply in_rev in Hrb, Hrb'. specialize (Hr Hrb).
    apply descending_before; auto; simpl; lia.
  - intros m Hm Hk. apply in_rev in Hm.
    apply descending_before; auto. simpl in *. lia.
  - apply NoDup_rev, descending_NoDup, Hd.
Qed.

End LoopDriverFacts.

(** ** The theorems at work on concrete command lines *)

(** [-b -k key -loop 1m]: refused before anything is done. *)
Lemma loop_mode_only_for_alerts_witness :
  (0 < flagLoop (withLoop 60000000000 brigadesFlags))%Z
  /\ intents (withLoop 60000000000 brigadesFlags) = 1%nat
  /\ flagAlerts (withLoop 60000000000 brigadesFlags) = false
  /\ main (B := demoBackend ["routes.txt"])
       (withLoop 60000000000 brigadesFlags) initial
     = (Fatal "loop mode is only available for alerts", initial).
Proof.
  split; [reflexivity|]. split; [reflexivity|]. split; [reflexivity|].
  exact (proj1 (loop_mode_only_for_alerts (B := demoBackend ["routes.txt"])
                  (withLoop 60000000000 brigadesFlags) initial
                  eq_refl eq_refl eq_refl)).
Defined.

(** C1, as stated, fails for a negative cadence: [-b -k key -loop -1ns] has
    a cadence that is not zero and Brigades as its one mode, and yet the
    run retrieves and loads the static GTFS, calls [brigades.Main] and
    ends without an error. *)
Lemma negative_cadence_is_one_shot :
  flagLoop (withLoop (-1) brigadesFlags) <> 0%Z
  /\ wf_flags (withLoop (-1) brigadesFlags)
  /\ intents (withLoop (-1) brigadesFlags) = 1%nat
  /\ flagAlerts (withLoop (-1) brigadesFlags) = false
  /\ fst (run (B := demoBackend ["routes.txt"]) (withLoop (-1) brigadesFlags))
     = Exit
  /\ existsb (loads (B := demoBackend ["routes.txt"]))
       (trace (snd (run (B := demoBackend ["routes.txt"])
                      (withLoop (-1) brigadesFlags))))
     = true
  /\ existsb (generates (B := demoBackend ["routes.txt"]))
       (trace (snd (run (B := demoBackend ["routes.txt"])
                      (withLoop (-1) brigadesFlags))))
     = true.
Proof.
  split; [discriminate|].
  split; [unfold wf_flags, int64_range; simpl; lia|].
  repeat split.
Qed.

(** C3, as stated, fails: with the default target directory the primary
    path is [data_rt/alerts.pb] (and [data_rt/positions.pb]) for the
    readable format and for the binary one alike, the extension does not
    follow the format flag. *)
Lemma readable_flag_keeps_extension :
  map alerts.GtfsRtTarget
    (pick (B := demoBackend ["routes.txt"]) alertsOptions
       (trace (snd (run (B := demoBackend ["routes.txt"])
                      (withReadable true alertsFlags)))))
  = ["data_rt/alerts.pb"]
  /\ map alerts.GtfsRtTarget
       (pick (B := demoBackend ["routes.txt"]) alertsOptions
          (trace (snd (run (B := demoBackend ["routes.txt"])
                         (withReadable false alertsFlags)))))
     = ["data_rt/alerts.pb"]
  /\ map positions.GtfsRtTarget
       (pick (B := demoBackend ["routes.txt"]) positionsOptions
          (trace (snd (run (B := demoBackend ["routes.txt"])
                         (withReadable true positionsFlags)))))
     = ["data_rt/positions.pb"]
  /\ map positions.GtfsRtTarget
       (pick (B := demoBackend ["routes.txt"]) positionsOptions
          (trace (snd (run (B := demoBackend ["routes.txt"])
                         (withReadable false positionsFlags)))))
     = ["data_rt/positions.pb"].
Proof. repeat split. Qed.

(** [-a] on a container without [routes.txt]. *)
Lemma loadGtfs_tables_witness :
  retrieved (B := demoBackend ["trips.txt"]) alertsFlags
  = ((["trips.txt"], []), None)
  /\ fst (loadGtfs (B := demoBackend ["trips.txt"]) alertsFlags initial)
     = Some (errors.New "no file routes.txt in the GTFS")
  /\ filter loadsTables
       (events (loadGtfs (B := demoBackend ["trips.txt"]) alertsFlags) initial)
     = [].
Proof.
  split; [reflexivity|].
  pose proof (loadGtfs_tables (B := demoBackend ["trips.txt"])
                alertsFlags initial (["trips.txt"], []) eq_refl) as H.
  cbn in H. destruct H as (H1 & H2 & _). split; [exact H1|exact H2].
Defined.

(** [-p -k key] *)
Lemma positions_never_load_gtfs_witness :
  flagPostions positionsFlags = true
  /\ gtfsFile (snd (main (B := demoBackend ["routes.txt"]) positionsFlags
                      initial))
     = nilGtfs
  /\ existsb loads
       (events (main (B := demoBackend ["routes.txt"]) positionsFlags) initial)
     = false.
Proof.
  split; [reflexivity|].
  pose proof (positions_never_load_gtfs (B := demoBackend ["routes.txt"])
                positionsFlags initial eq_refl) as H.
  destruct H as (H1 & H2 & _). split; [exact H1|exact H2].
Defined.

(** [-b] without a key. *)
Lemma empty_key_is_refused_witness :
  flagApikey (withApikey "" brigadesFlags) = ""
  /\ mainBrigades (B := demoBackend ["routes.txt"])
       (withApikey "" brigadesFlags) initial
     = (Some (errors.New "Key for api.um.warszawa.pl needs to be provided"),
        initial).
Proof.
  split; [reflexivity|].
  exact (proj1 (empty_key_is_refused (B := demoBackend ["routes.txt"])
                  (withApikey "" brigadesFlags) initial eq_refl)).
Defined.

(** [-a] and [-a -loop 5ns], on two different backends. *)
Lemma options_deterministic_witness :
  sameConfiguration alertsFlags (withLoop 5 alertsFlags)
  /\ pick (B := demoBackend ["routes.txt"]) alertsOptions
       (events (B := demoBackend ["routes.txt"]) (mainAlerts alertsFlags)
          initial)
     = pick (B := demoBackend []) alertsOptions
         (events (B := demoBackend []) (mainAlerts (withLoop 5 alertsFlags))
            initial).
Proof.
  assert (H : sameConfiguration alertsFlags (withLoop 5 alertsFlags))
    by (repeat split).
  split; [exact H|].
  exact (proj1 (options_deterministic (demoBackend ["routes.txt"])
                  (demoBackend []) alertsFlags (withLoop 5 alertsFlags)
                  initial initial H)).
Defined.

(** The regeneration of cycle 1 ends before the check of cycle 2 begins. *)
Lemma cycles_do_not_overlap_witness :
  1 < 2
  /\ In (LoopDriver.CheckBegins 2) (LoopDriver.history LoopDriver.demoEnv 20)
  /\ LoopDriver.before (LoopDriver.RegenerationEnds 1)
       (LoopDriver.CheckBegins 2) (LoopDriver.history LoopDriver.demoEnv 20).
Proof.
  assert (H : In (LoopDriver.CheckBegins 2)
                (LoopDriver.history LoopDriver.demoEnv 20))
    by (cbv; repeat (first [left; reflexivity | right])).
  split; [apply le_n|]. split; [exact H|].
  destruct (cycles_do_not_overlap LoopDriver.demoEnv 20 1 2 (le_n 2) H)
    as (_ & _ & Hr & _).
  apply Hr. cbv. repeat (first [left; reflexivity | right]).
Defined.

(** * The runs of [main], mode by mode *)

(** ** The directory of the output files *)

Lemma concat_snoc_exact (sep : string) (l : list string) (x : string) :
  String.concat sep (l ++ [x])
  = match l with
    | [] => x
    | e :: es => String.concat sep (e :: es) ++ sep ++ x
    end.
Proof.
  induction l as [|a l IH]; [reflexivity|].
  change ((a :: l) ++ [x])%list with (a :: (l ++ [x]))%list.
  destruct l as [|b l].
  - reflexivity.
  - change (String.concat sep (a :: (b :: l) ++ [x]))
      with (a ++ sep ++ String.concat sep ((b :: l) ++ [x])).
    rewrite IH.
    change (String.concat sep (a :: b :: l))
      with (a ++ sep ++ String.concat sep (b :: l)).
    now rewrite !append_assoc.
Qed.

Lemma plain_not_rooted (name : string) :
  plainName name -> path.rooted name = false.
Proof.
  intros (Hone & He & _). destruct name as [|c name]; [reflexivity|].
  simpl in *. destruct (Ascii.eqb c "/"); [|reflexivity].
  inversion Hone.
Qed.

Lemma rooted_app (t rest : string) :
  t <> "" -> path.rooted (t ++ rest) = path.rooted t.
Proof. destruct t; [congruence|reflexivity]. Qed.

Lemma Join_directory (t name : string) :
  plainName name -> path.Join [t; name] = directoryOf t ++ name.
Proof.
  intros Hn. pose proof Hn as (Hone & He & Hd & Hdd).
  rewrite Join_clean by assumption.
  destruct (String.eqb_spec t "") as [->|Ht].
  - unfold path.Clean, directoryOf. rewrite He, Hone.
    rewrite (plain_not_rooted name Hn). cbn [path.walk path.split path.rooted].
    rewrite He, Hd, Hdd. cbn. now rewrite He.
  - unfold path.Clean, directoryOf.
    assert (Hp : (t ++ "/" ++ name =? "") = false)
      by (destruct t; [congruence|reflexivity]).
    rewrite Hp, rooted_app by assumption.
    change (t ++ "/" ++ name) with (t ++ String "/" name).
    rewrite split_app_slash, Hone, walk_app. cbn [path.walk].
    rewrite He, Hd, Hdd. cbn [orb rev].
    rewrite concat_snoc_exact.
    destruct (rev (path.walk (path.rooted t) (path.split t) [])) as [|e es].
    + rewrite append_not_empty by assumption. reflexivity.
    + rewrite <- !append_assoc.
      rewrite append_not_empty by assumption. reflexivity.
Qed.

Section LauncherRuns.
Context {B : Backend}.

Lemma after_after (s : State) (g g' : Gtfs) (l l' : list Event) :
  after (after s g l) g' l' = after s g' (l ++ l')%list.
Proof. unfold after; simpl. now rewrite app_assoc. Qed.

Lemma loadGtfs_after (cfg : Flags) (s : State) :
  snd (loadGtfs cfg s)
  = after s (gtfsFile (snd (loadGtfs cfg s))) (events (loadGtfs cfg) s).
Proof.
  pose proof (loadGtfs_run cfg s) as H. cbv zeta in H.
  destruct (snd (retrieved cfg)).
  2: destruct (flagAlerts cfg).
  2: destruct (gtfs_GetZipFileByName (fst (retrieved cfg)) "routes.txt").
  all: rewrite (events_after _ _ _ _ _ H), H; reflexivity.
Qed.

Lemma loadGtfs_generates_nothing (cfg : Flags) (s : State) :
  filter generates (events (loadGtfs cfg) s) = [].
Proof.
  pose proof (loadGtfs_run cfg s) as H. cbv zeta in H.
  assert (Hr : generates (retrieval cfg) = false)
    by (unfold retrieval; now destruct (networkAddressed _)).
  destruct (snd (retrieved cfg)).
  2: destruct (flagAlerts cfg).
  2: destruct (gtfs_GetZipFileByName (fst (retrieved cfg)) "routes.txt").
  all: apply events_after in H; rewrite H; cbn [filter app generates];
    now rewrite Hr.
Qed.

Lemma one_mode (cfg : Flags) :
  intents cfg = 1%nat ->
  (flagAlerts cfg = true /\ flagBrigades cfg = false /\ flagPostions cfg = false)
  \/ (flagAlerts cfg = false /\ flagBrigades cfg = true
      /\ flagPostions cfg = false)
  \/ (flagAlerts cfg = false /\ flagBrigades cfg = false
      /\ flagPostions cfg = true).
Proof.
  unfold intents.
  destruct (flagAlerts cfg), (flagBrigades cfg), (flagPostions cfg);
    simpl; intros H; try discriminate; auto.
Qed.

Lemma main_refuses_loop_run (cfg : Flags) (s : State) :
  intents cfg = 1%nat -> flagAlerts cfg = false ->
  (flagLoop cfg >? 0)%Z = true ->
  main cfg s = (Fatal "loop mode is only available for alerts", s).
Proof.
  intros Hone Ha Hl. unfold main, bind.
  rewrite checkModes_run, Hone, Ha, Hl. now rewrite andb_false_r.
Qed.

Lemma main_alerts_loop_run (cfg : Flags) (s : State) :
  intents cfg = 1%nat -> flagAlerts cfg = true ->
  (flagLoop cfg >? 0)%Z = true ->
  main cfg s =
  (match alerts_Loop client (resourceFor cfg) (flagLoop cfg)
           (alertsBundle cfg) with
   | Forever => Running
   | Returns err => outcomeOf err
   end,
   after s (gtfsFile s)
     [AlertsLoop client (resourceFor cfg) (flagLoop cfg) (alertsBundle cfg)]).
Proof.
  intros Hone Ha Hl. unfold main, bind.
  rewrite checkModes_run, Hone, Ha, Hl. rewrite andb_false_r.
  cbn [Nat.eqb ret andb]. rewrite loopAlerts_run.
  destruct (alerts_Loop _ _ _ _) as [[e|]|]; reflexivity.
Qed.

Lemma main_alerts_once_run (cfg : Flags) (s : State) :
  intents cfg = 1%nat -> flagAlerts cfg = true ->
  (flagLoop cfg >? 0)%Z = false ->
  main cfg s =
  match fst (loadGtfs cfg s) with
  | Some err => (Fatal (errors.Error err), snd (loadGtfs cfg s))
  | None =>
      (outcomeOf (alerts_Make client
                    (gtfs_Routes (gtfsFile (snd (loadGtfs cfg s))))
                    (alertsBundle cfg)),
       after s (gtfsFile (snd (loadGtfs cfg s)))
         (events (loadGtfs cfg) s ++
          [Println "Creating Alerts feed";
           AlertsMake client (gtfs_Routes (gtfsFile (snd (loadGtfs cfg s))))
             (alertsBundle cfg)]))
  end.
Proof.
  intros Hone Ha Hl.
  destruct (one_mode cfg Hone) as [(_ & Hb & Hp)|[(H & _)|(H & _)]];
    try congruence.
  unfold main, bind. rewrite checkModes_run, Hone, Ha, Hp, Hl.
  cbn [Nat.eqb negb andb].
  generalize (loadGtfs_after cfg s). unfold events.
  destruct (loadGtfs cfg s) as [[e|] s1]; cbn [fst snd]; intros Hs1;
    [reflexivity|].
  unfold returning, bind. rewrite mainAlerts_run.
  rewrite <- (after_after s (gtfsFile s1)), <- Hs1.
  unfold ret. now destruct (alerts_Make _ _ _).
Qed.

Lemma main_brigades_once_run (cfg : Flags) (s : State) :
  intents cfg = 1%nat -> flagBrigades cfg = true ->
  (flagLoop cfg >? 0)%Z = false ->
  main cfg s =
  match fst (loadGtfs cfg s) with
  | Some err => (Fatal (errors.Error err), snd (loadGtfs cfg s))
  | None =>
      if flagApikey cfg =? "" then
        (Fatal "Key for api.um.warszawa.pl needs to be provided",
         snd (loadGtfs cfg s))
      else
        (outcomeOf (brigades_Main client (gtfsFile (snd (loadGtfs cfg s)))
                      (brigadesBundle cfg)),
         after s (gtfsFile (snd (loadGtfs cfg s)))
           (events (loadGtfs cfg) s ++
            [Println "Creating brigades.json";
             BrigadesMain client (gtfsFile (snd (loadGtfs cfg s)))
               (brigadesBundle cfg)]))
  end.
Proof.
  intros Hone Hb Hl.
  destruct (one_mode cfg Hone) as [(H & H' & _)|[(Ha & _ & Hp)|(_ & H & _)]];
    try congruence.
  unfold main, bind. rewrite checkModes_run, Hone, Ha, Hb, Hp, Hl.
  cbn [Nat.eqb negb andb].
  generalize (loadGtfs_after cfg s). unfold events.
  destruct (loadGtfs cfg s) as [[e|] s1]; cbn [fst snd]; intros Hs1;
    [reflexivity|].
  unfold returning, bind. rewrite mainBrigades_run.
  destruct (flagApikey cfg =? ""); [reflexivity|].
  rewrite <- (after_after s (gtfsFile s1)), <- Hs1.
  unfold ret. now destruct (brigades_Main _ _ _).
Qed.


Lemma not_loop_mode (cfg : Flags) :
  (flagLoop cfg <= 0)%Z -> (flagLoop cfg >? 0)%Z = false.
Proof. intros H. rewrite Z.gtb_ltb. now apply Z.ltb_ge. Qed.

(** X1: when the number of mode flags on the command line is not one,
    [main] ends with the error "exactly one of the -a, -b or -p flags has
    to be provided" whatever else is given, before logging, retrieving or
    generating anything. *)
Theorem bad_mode_count_is_fatal (cfg : Flags) (s : State) :
  intents cfg <> 1%nat ->
  main cfg s
  = (Fatal "exactly one of the -a, -b or -p flags has to be provided", s)
  /\ events (main cfg) s = [].
Proof.
  intros H. pose proof (main_fatal_modes cfg s H) as Hrun.
  split; [exact Hrun|]. now apply events_same in Hrun.
Qed.

(** X2: a one-shot Alerts run whose container is retrieved, holds
    [routes.txt] and loads its routes does exactly this, in this order:
    retrieve, look up [routes.txt], [LoadRoutes], then [alerts.Make] on the
    routes of the dataset as [LoadRoutes] left it; the run ends as
    [alerts.Make] says and [gtfsFile] is that dataset. *)
Theorem alerts_once_trace (cfg : Flags) (s : State) (g g' : Gtfs)
  (routesFile : ZipFile) :
  intents cfg = 1%nat -> flagAlerts cfg = true -> (flagLoop cfg <= 0)%Z ->
  retrieved cfg = (g, None) ->
  gtfs_GetZipFileByName g "routes.txt" = Some routesFile ->
  gtfs_LoadRoutes g routesFile = (g', None) ->
  events (main cfg) s
  = [Println "Retrieving provided GTFS"; retrieval cfg;
     Println "Loading routes.txt"; GetZipFileByName "routes.txt";
     LoadRoutes routesFile; Println "Creating Alerts feed";
     AlertsMake client (gtfs_Routes g') (alertsBundle cfg)]
  /\ fst (main cfg s)
     = outcomeOf (alerts_Make client (gtfs_Routes g') (alertsBundle cfg))
  /\ gtfsFile (snd (main cfg s)) = g'.
Proof.
  intros Hone Ha Hl Hr Hz Hlr. apply not_loop_mode in Hl.
  pose proof (main_alerts_once_run cfg s Hone Ha Hl) as Hm.
  pose proof (loadGtfs_run cfg s) as Hload. cbv zeta in Hload.
  rewrite Hr in Hload. cbn [fst snd] in Hload.
  rewrite Ha, Hz, Hlr in Hload. cbn [fst snd] in Hload.
  rewrite (events_after _ _ _ _ _ Hload), Hload in Hm.
  cbn [fst snd after gtfsFile] in Hm.
  rewrite (events_after _ _ _ _ _ Hm), Hm. auto.
Qed.

(** X3: in a one-shot Alerts or Brigades run, an error of [loadGtfs] ends
    the run with that error's message, and no generation package is
    called. *)
Theorem load_error_is_fatal (cfg : Flags) (s : State) (err : errors.error) :
  intents cfg = 1%nat -> flagPostions cfg = false -> (flagLoop cfg <= 0)%Z ->
  fst (loadGtfs cfg s) = Some err ->
  main cfg s = (Fatal (errors.Error err), snd (loadGtfs cfg s))
  /\ filter generates (events (main cfg) s) = [].
Proof.
  intros Hone Hp Hl Herr. apply not_loop_mode in Hl.
  assert (Hm : main cfg s = (Fatal (errors.Error err), snd (loadGtfs cfg s))).
  { destruct (one_mode cfg Hone) as [(Ha & _)|[(_ & Hb & _)|(_ & _ & H)]];
      [| |congruence].
    - rewrite (main_alerts_once_run cfg s Hone Ha Hl), Herr. reflexivity.
    - rewrite (main_brigades_once_run cfg s Hone Hb Hl), Herr. reflexivity. }
  split; [exact Hm|].
  rewrite loadGtfs_after in Hm. apply events_after in Hm. rewrite Hm.
  apply loadGtfs_generates_nothing.
Qed.

(** X4: in Alerts loop mode the launcher itself neither logs nor retrieves
    or loads the dataset: its one action is the call of [alerts.Loop], with
    the resource for [-gtfs-file] (rechecked every [-checkdata]), the
    cadence as sleep time and the alerts options; [gtfsFile] keeps its
    value, and the run goes on for ever unless [alerts.Loop] comes back,
    with an error (fatal) or without. *)
Theorem alerts_loop_hands_over (cfg : Flags) (s : State) :
  intents cfg = 1%nat -> flagAlerts cfg = true -> (0 < flagLoop cfg)%Z ->
  events (main cfg) s
  = [AlertsLoop client
       (if networkAddressed (flagGtfsFile cfg)
        then util.ResourceHTTP client (flagGtfsFile cfg) (flagDataCheck cfg)
        else util.ResourceLocal (flagGtfsFile cfg) (flagDataCheck cfg))
       (flagLoop cfg) (alertsBundle cfg)]
  /\ gtfsFile (snd (main cfg s)) = gtfsFile s
  /\ fst (main cfg s)
     = match alerts_Loop client (resourceFor cfg) (flagLoop cfg)
               (alertsBundle cfg) with
       | Forever => Running
       | Returns err => outcomeOf err
       end.
Proof.
  intros Hone Ha Hl. apply Z.gtb_lt in Hl.
  pose proof (main_alerts_loop_run cfg s Hone Ha Hl) as Hm.
  rewrite (events_after _ _ _ _ _ Hm), Hm. auto.
Qed.

(** X5: a one-shot Brigades run with a key whose container is retrieved
    and loads in full does exactly this, in this order: retrieve,
    [LoadAll], then [brigades.Main] on the dataset as [LoadAll] left it,
    with the key, the strict flag and the path of [brigades.json]. *)
Theorem brigades_once_trace (cfg : Flags) (s : State) (g g' : Gtfs) :
  intents cfg = 1%nat -> flagBrigades cfg = true -> (flagLoop cfg <= 0)%Z ->
  flagApikey cfg <> "" ->
  retrieved cfg = (g, None) ->
  gtfs_LoadAll g = (g', None) ->
  events (main cfg) s
  = [Println "Retrieving provided GTFS"; retrieval cfg;
     Println "Loading data from the GTFS"; LoadAll;
     Println "Creating brigades.json";
     BrigadesMain client g' (brigadesBundle cfg)]
  /\ fst (main cfg s)
     = outcomeOf (brigades_Main client g' (brigadesBundle cfg))
  /\ gtfsFile (snd (main cfg s)) = g'.
Proof.
  intros Hone Hb Hl Hk Hr Hla. apply not_loop_mode in Hl.
  apply String.eqb_neq in Hk.
  pose proof (main_brigades_once_run cfg s Hone Hb Hl) as Hm.
  destruct (one_mode cfg Hone) as [(H & H' & _)|[(Ha & _ & _)|(_ & H & _)]];
    try congruence.
  pose proof (loadGtfs_run cfg s) as Hload. cbv zeta in Hload.
  rewrite Hr in Hload. cbn [fst snd] in Hload.
  rewrite Ha, Hla in Hload. cbn [fst snd] in Hload.
  rewrite (events_after _ _ _ _ _ Hload), Hload, Hk in Hm.
  cbn [fst snd after gtfsFile] in Hm.
  rewrite (events_after _ _ _ _ _ Hm), Hm. auto.
Qed.

(** X6: the key is looked at after the dataset: a one-shot Brigades run
    without a key still retrieves the container (and loads it, as
    [loadGtfs] does), calls no generation package, and ends with the load
    error if there is one, with the missing-key error otherwise. *)
Theorem brigades_key_checked_after_load (cfg : Flags) (s : State) :
  intents cfg = 1%nat -> flagBrigades cfg = true -> (flagLoop cfg <= 0)%Z ->
  flagApikey cfg = "" ->
  events (main cfg) s = events (loadGtfs cfg) s
  /\ filter retrieves (events (main cfg) s) = [retrieval cfg]
  /\ filter generates (events (main cfg) s) = []
  /\ fst (main cfg s)
     = match fst (loadGtfs cfg s) with
       | Some err => Fatal (errors.Error err)
       | None => Fatal "Key for api.um.warszawa.pl needs to be provided"
       end.
Proof.
  intros Hone Hb Hl Hk. apply not_loop_mode in Hl.
  pose proof (main_brigades_once_run cfg s Hone Hb Hl) as Hm.
  rewrite Hk in Hm. cbn [String.eqb] in Hm.
  assert (Hev : events (main cfg) s = events (loadGtfs cfg) s).
  { destruct (fst (loadGtfs cfg s)); rewrite loadGtfs_after in Hm;
      now apply events_after in Hm. }
  rewrite Hev, loadGtfs_retrieves, loadGtfs_generates_nothing.
  repeat split. rewrite Hm. now destruct (fst (loadGtfs cfg s)).
Qed.

(** X7: when retrieving the container fails, [loadGtfs] returns that error
    at once: it looks up no file and loads no table, in Alerts mode as in
    the others; [gtfsFile] has been overwritten all the same, with what the
    failed constructor returned. *)
Theorem retrieval_failure_stops_loading (cfg : Flags) (s : State) (g : Gtfs)
  (err : errors.error) :
  retrieved cfg = (g, Some err) ->
  fst (loadGtfs cfg s) = Some err
  /\ events (loadGtfs cfg) s
     = [Println "Retrieving provided GTFS"; retrieval cfg]
  /\ filter loadsTables (events (loadGtfs cfg) s) = []
  /\ gtfsFile (snd (loadGtfs cfg s)) = g.
Proof.
  intros Hr. pose proof (loadGtfs_run cfg s) as H. cbv zeta in H.
  rewrite Hr in H. cbn [fst snd] in H.
  rewrite (events_after _ _ _ _ _ H), H. cbn [fst snd after gtfsFile filter].
  assert (Hl : loadsTables (retrieval cfg) = false)
    by (unfold retrieval; now destruct (networkAddressed _)).
  rewrite Hl. auto.
Qed.


(** *** Every run has one of four shapes *)

Lemma main_cases (cfg : Flags) (s : State) :
  (exists msg, main cfg s = (Fatal msg, s))
  \/ (exists msg, main cfg s = (Fatal msg, snd (loadGtfs cfg s)))
  \/ (intents cfg = 1%nat /\ flagAlerts cfg = true /\ (0 < flagLoop cfg)%Z
      /\ main cfg s
         = (match alerts_Loop client (resourceFor cfg) (flagLoop cfg)
                  (alertsBundle cfg) with
            | Forever => Running
            | Returns err => outcomeOf err
            end,
            after s (gtfsFile s)
              [AlertsLoop client (resourceFor cfg) (flagLoop cfg)
                 (alertsBundle cfg)]))
  \/ (exists err g pre msg e,
        generates e = true
        /\ (pre = [] \/ pre = events (loadGtfs cfg) s)
        /\ main cfg s
           = (outcomeOf err, after s g (pre ++ [Println msg; e]))).
Proof.
  destruct (Nat.eq_dec (intents cfg) 1) as [Hone|Hne].
  2: { left. eexists. now apply main_fatal_modes. }
  destruct (flagLoop cfg >? 0)%Z eqn:Hl.
  - destruct (flagAlerts cfg) eqn:Ha.
    + right; right; left. repeat split; auto.
      * now apply Z.gtb_lt.
      * now apply main_alerts_loop_run.
    + left. eexists. now apply main_refuses_loop_run.
  - destruct (one_mode cfg Hone) as [(Ha & _)|[(_ & Hb & _)|(_ & _ & Hp)]].
    + pose proof (main_alerts_once_run cfg s Hone Ha Hl) as Hm.
      destruct (fst (loadGtfs cfg s)).
      * right; left. eexists. exact Hm.
      * right; right; right. do 5 eexists.
        split; [|split; [right; reflexivity|exact Hm]]. reflexivity.
    + pose proof (main_brigades_once_run cfg s Hone Hb Hl) as Hm.
      destruct (fst (loadGtfs cfg s)); [right; left; eexists; exact Hm|].
      destruct (flagApikey cfg =? ""); [right; left; eexists; exact Hm|].
      right; right; right. do 5 eexists.
      split; [|split; [right; reflexivity|exact Hm]]. reflexivity.
    + pose proof (main_positions_run cfg s Hp) as Hm.
      rewrite Hone, Hl in Hm. cbn [Nat.eqb negb] in Hm.
      destruct (flagApikey cfg =? ""); [left; eexists; exact Hm|].
      right; right; right.
      exists (positions_Main client (positionsBundle cfg)), (gtfsFile s), [].
      do 2 eexists.
      split; [|split; [left; reflexivity|exact Hm]]. reflexivity.
Qed.

Lemma generates_only (e : Event) :
  generates e = true -> retrieves e = false /\ loadsTables e = false.
Proof. destruct e; simpl; auto; discriminate. Qed.

Lemma loadGtfs_loads_one_table (cfg : Flags) (s : State) :
  List.length (filter loadsTables (events (loadGtfs cfg) s)) <= 1.
Proof.
  pose proof (loadGtfs_run cfg s) as H. cbv zeta in H.
  assert (Hr : loadsTables (retrieval cfg) = false)
    by (unfold retrieval; now destruct (networkAddressed _)).
  destruct (snd (retrieved cfg)).
  2: destruct (flagAlerts cfg).
  2: destruct (gtfs_GetZipFileByName (fst (retrieved cfg)) "routes.txt").
  all: apply events_after in H; rewrite H; cbn [filter app loadsTables];
    rewrite Hr; simpl; lia.
Qed.

(** X8: no run of [main] does a thing twice: whatever the command line and
    the packages' answers, it makes at most one generation call
    ([alerts.Make], [alerts.Loop], [brigades.Main] or [positions.Main]),
    retrieves the dataset container at most once and loads tables from it
    at most once. *)
Theorem at_most_one_generation (cfg : Flags) (s : State) :
  List.length (filter generates (events (main cfg) s)) <= 1
  /\ List.length (filter retrieves (events (main cfg) s)) <= 1
  /\ List.length (filter loadsTables (events (main cfg) s)) <= 1.
Proof.
  pose proof (loadGtfs_generates_nothing cfg s) as Hg.
  pose proof (loadGtfs_retrieves cfg s) as Hr.
  pose proof (loadGtfs_loads_one_table cfg s) as Ht.
  destruct (main_cases cfg s)
    as [(msg & Hm)|[(msg & Hm)|[(_ & _ & _ & Hm)
        |(err & g & pre & msg & e & He & Hpre & Hm)]]].
  - apply events_same in Hm. rewrite Hm. simpl. lia.
  - rewrite loadGtfs_after in Hm. apply events_after in Hm.
    rewrite Hm, Hg, Hr. simpl. lia.
  - apply events_after in Hm. rewrite Hm. simpl. lia.
  - apply events_after in Hm. rewrite Hm, !filter_app.
    destruct (generates_only e He) as [He1 He2].
    cbn [filter generates retrieves loadsTables]. rewrite He, He1, He2.
    rewrite !length_app.
    destruct Hpre as [->| ->]; [simpl; lia|].
    rewrite Hg, Hr. simpl. lia.
Qed.

(** X9: a run that ends normally has generated: when [main] ends without
    an error, exactly one mode flag was set and exactly one generation call
    was made. *)
Theorem exit_means_generated (cfg : Flags) (s : State) :
  fst (main cfg s) = Exit ->
  intents cfg = 1%nat
  /\ exists e, filter generates (events (main cfg) s) = [e].
Proof.
  intros Hexit. split.
  - destruct (Nat.eq_dec (intents cfg) 1) as [Hone|Hne]; [assumption|].
    rewrite (main_fatal_modes cfg s Hne) in Hexit. discriminate.
  - destruct (main_cases cfg s)
      as [(msg & Hm)|[(msg & Hm)|[(_ & _ & _ & Hm)
          |(err & g & pre & msg & e & He & Hpre & Hm)]]].
    + rewrite Hm in Hexit. discriminate.
    + rewrite Hm in Hexit. discriminate.
    + apply events_after in Hm. rewrite Hm. eexists. reflexivity.
    + apply events_after in Hm. rewrite Hm, filter_app.
      cbn [filter generates]. rewrite He. exists e.
      destruct Hpre as [->| ->]; [reflexivity|].
      now rewrite loadGtfs_generates_nothing.
Qed.



(** *** The output files *)

Lemma plain_alerts_json : plainName "alerts.json".
Proof. repeat split. Qed.

Lemma plain_positions_json : plainName "positions.json".
Proof. repeat split. Qed.

Lemma Join_not_empty (t name : string) :
  plainName name -> path.Join [t; name] <> "".
Proof.
  intros Hn. rewrite Join_directory by assumption.
  destruct Hn as (_ & He & _). apply String.eqb_neq.
  now apply append_not_empty.
Qed.

(** X11: every output file of a run lies in one directory, which depends
    on [-target] alone: the bundles handed to the generation packages hold
    [directoryOf target] followed by [alerts.pb] and [alerts.json],
    [brigades.json], or [positions.pb] and [positions.json]. *)
Theorem outputs_share_directory (cfg : Flags) (s : State) :
  pick alertsOptions (events (mainAlerts cfg) s)
  = [{| alerts.GtfsRtTarget := directoryOf (flagTarget cfg) ++ "alerts.pb";
        alerts.JSONTarget :=
          if flagJSON cfg then directoryOf (flagTarget cfg) ++ "alerts.json"
          else "";
        alerts.HumanReadable := flagReadable cfg;
        alerts.ThrowLinkErrors := flagStrict cfg |}]
  /\ pick alertsOptions (events (loopAlerts cfg) s)
     = pick alertsOptions (events (mainAlerts cfg) s)
  /\ pick brigadesOptions (events (mainBrigades cfg) s)
     = (if flagApikey cfg =? "" then []
        else [{| brigades.JSONTarget :=
                   directoryOf (flagTarget cfg) ++ "brigades.json";
                 brigades.Apikey := flagApikey cfg;
                 brigades.ThrowAPIErrors := flagStrict cfg |}])
  /\ pick positionsOptions (events (mainPositions cfg) s)
     = (if flagApikey cfg =? "" then []
        else [{| positions.GtfsRtTarget :=
                   directoryOf (flagTarget cfg) ++ "positions.pb";
                 positions.JSONTarget :=
                   if flagJSON cfg
                   then directoryOf (flagTarget cfg) ++ "positions.json"
                   else "";
                 positions.HumanReadable := flagReadable cfg;
                 positions.Apikey := flagApikey cfg;
                 positions.Brigades := flagBrigadesFile cfg |}]).
Proof.
  rewrite (events_after _ _ _ _ _ (mainAlerts_run cfg s)).
  rewrite (events_after _ _ _ _ _ (loopAlerts_run cfg s)).
  pose proof (mainBrigades_run cfg s) as Hb.
  pose proof (mainPositions_run cfg s) as Hp.
  cbn [pick alertsOptions]. unfold alertsBundle.
  rewrite <- !(Join_directory (flagTarget cfg)) 
    by (first [apply plain_alerts_pb | apply plain_alerts_json
              | apply plain_brigades_json | apply plain_positions_pb
              | apply plain_positions_json]).
  split; [reflexivity|]. split; [reflexivity|].
  destruct (flagApikey cfg =? "");
    first [apply events_same in Hb | apply events_after in Hb];
    first [apply events_same in Hp | apply events_after in Hp];
    rewrite Hb, Hp; split; reflexivity.
Qed.

(** X12: the JSON target tells whether JSON was asked for: in the options
    handed to the alerts and positions packages [JSONTarget] is the empty
    string exactly when [-json] is not set (with [-json] it is a path that
    is never empty, whatever [-target] is). *)
Theorem json_target_empty_without_json (cfg : Flags) (s : State) :
  Forall (fun opts => alerts.JSONTarget opts = "" <-> flagJSON cfg = false)
    (pick alertsOptions (events (mainAlerts cfg) s))
  /\ Forall (fun opts => alerts.JSONTarget opts = "" <-> flagJSON cfg = false)
       (pick alertsOptions (events (loopAlerts cfg) s))
  /\ Forall (fun opts => positions.JSONTarget opts = ""
                         <-> flagJSON cfg = false)
       (pick positionsOptions (events (mainPositions cfg) s))
  /\ List.length (pick alertsOptions (events (mainAlerts cfg) s)) = 1%nat
  /\ List.length (pick alertsOptions (events (loopAlerts cfg) s)) = 1%nat.
Proof.
  rewrite (events_after _ _ _ _ _ (mainAlerts_run cfg s)).
  rewrite (events_after _ _ _ _ _ (loopAlerts_run cfg s)).
  pose proof (mainPositions_run cfg s) as Hp.
  pose proof (Join_not_empty (flagTarget cfg) _ plain_alerts_json) as Ha.
  pose proof (Join_not_empty (flagTarget cfg) _ plain_positions_json) as Hj.
  cbn [pick alertsOptions List.length].
  assert (Hal : alerts.JSONTarget (alertsBundle cfg) = ""
                <-> flagJSON cfg = false).
  { unfold alertsBundle. cbn [alerts.JSONTarget].
    destruct (flagJSON cfg); split; auto; try discriminate; contradiction. }
  split; [repeat constructor; apply Hal|].
  split; [repeat constructor; apply Hal|].
  split; [|split; reflexivity].
  destruct (flagApikey cfg =? "");
    first [apply events_same in Hp | apply events_after in Hp]; rewrite Hp;
    cbn [pick positionsOptions]; repeat constructor.
  - unfold positionsBundle. cbn [positions.JSONTarget].
    destruct (flagJSON cfg); auto; contradiction.
  - unfold positionsBundle. cbn [positions.JSONTarget].
    destruct (flagJSON cfg); auto; discriminate.
Qed.

(** *** Flags a mode does not look at *)

(** X13: [-checkdata] matters in loop mode only: when the cadence is not
    positive, the run is the same for every value of [-checkdata], in all
    three modes. *)
Theorem one_shot_ignores_checkdata (cfg : Flags) (s : State) (d : Z) :
  (flagLoop cfg <= 0)%Z ->
  main (withDataCheck d cfg) s = main cfg s.
Proof.
  intros Hl. apply not_loop_mode in Hl.
  unfold main, bind. cbn [withDataCheck flagLoop flagAlerts flagPostions
                            flagBrigades].
  rewrite Hl, !andb_false_r. reflexivity.
Qed.

(** X14: Positions mode does not look at [-strict]: with the Positions
    flag set the run is the same whether [-strict] is given or not. *)
Theorem positions_ignore_strict (cfg : Flags) (s : State) (b : bool) :
  flagPostions cfg = true ->
  main (withStrict b cfg) s = main cfg s.
Proof.
  intros Hp. rewrite !main_positions_run by assumption. reflexivity.
Qed.

(** X15: Brigades mode does not look at [-readable], [-json] and
    [-brigades-file]: with the Brigades flag set and the Alerts flag not
    set, the run is the same whatever these three are. *)
Theorem brigades_ignore_format_flags (cfg : Flags) (s : State)
  (r j : bool) (file : string) :
  flagBrigades cfg = true -> flagAlerts cfg = false ->
  main (withReadable r (withJSON j (withBrigadesFile file cfg))) s
  = main cfg s.
Proof.
  intros Hb Ha.
  destruct (Nat.eq_dec (intents cfg) 1) as [Hone|Hne].
  - destruct (one_mode cfg Hone) as [(H & _)|[(_ & _ & Hp)|(_ & H & _)]];
      try congruence.
    unfold main, bind.
    cbn [withReadable withJSON withBrigadesFile flagLoop flagAlerts
           flagPostions flagBrigades].
    rewrite Ha, Hb, Hp. reflexivity.
  - rewrite (main_fatal_modes cfg s Hne).
    now apply main_fatal_modes.
Qed.

(** X16: Alerts mode does not look at [-k] and [-brigades-file]: with
    the Alerts flag set the run, one-shot or loop, is the same whatever
    these two are. *)
Theorem alerts_ignore_key_and_brigades_file (cfg : Flags) (s : State)
  (k file : string) :
  flagAlerts cfg = true ->
  main (withApikey k (withBrigadesFile file cfg)) s = main cfg s.
Proof.
  intros Ha. unfold main, bind.
  cbn [withApikey withBrigadesFile flagLoop flagAlerts flagPostions
         flagBrigades].
  rewrite Ha. reflexivity.
Qed.

End LauncherRuns.

(** ** These properties at work on concrete command lines *)

(** No mode flag at all. *)
Lemma bad_mode_count_is_fatal_witness :
  intents defaultFlags <> 1%nat
  /\ main (B := demoBackend ["routes.txt"]) defaultFlags initial
     = (Fatal "exactly one of the -a, -b or -p flags has to be provided",
        initial).
Proof.
  assert (H : intents defaultFlags <> 1%nat) by discriminate.
  split; [exact H|].
  exact (proj1 (bad_mode_count_is_fatal (B := demoBackend ["routes.txt"])
                  defaultFlags initial H)).
Defined.

(** [-a] on a container with [routes.txt]. *)
Lemma alerts_once_trace_witness :
  intents alertsFlags = 1%nat /\ flagAlerts alertsFlags = true
  /\ (flagLoop alertsFlags <= 0)%Z
  /\ fst (main (B := demoBackend ["routes.txt"]) alertsFlags initial) = Exit
  /\ gtfsFile (snd (main (B := demoBackend ["routes.txt"]) alertsFlags
                      initial))
     = (["routes.txt"], ["routes.txt"]).
Proof.
  split; [reflexivity|]. split; [reflexivity|].
  split; [apply Z.le_refl|].
  exact (proj2 (alerts_once_trace (B := demoBackend ["routes.txt"])
                  alertsFlags initial (["routes.txt"], [])
                  (["routes.txt"], ["routes.txt"]) "routes.txt"
                  eq_refl eq_refl (Z.le_refl 0) eq_refl eq_refl eq_refl)).
Defined.

(** [-a] on a container without [routes.txt]. *)
Lemma load_error_is_fatal_witness :
  intents alertsFlags = 1%nat /\ flagPostions alertsFlags = false
  /\ (flagLoop alertsFlags <= 0)%Z
  /\ fst (loadGtfs (B := demoBackend []) alertsFlags initial)
     = Some (errors.New "no file routes.txt in the GTFS")
  /\ filter generates (events (main (B := demoBackend []) alertsFlags) initial)
     = [].
Proof.
  split; [reflexivity|]. split; [reflexivity|].
  split; [apply Z.le_refl|]. split; [reflexivity|].
  exact (proj2 (load_error_is_fatal (B := demoBackend []) alertsFlags initial
                  (errors.New "no file routes.txt in the GTFS")
                  eq_refl eq_refl (Z.le_refl 0) eq_refl)).
Defined.

(** [-a -loop 5ns] *)
Lemma alerts_loop_hands_over_witness :
  intents (withLoop 5 alertsFlags) = 1%nat
  /\ flagAlerts (withLoop 5 alertsFlags) = true
  /\ (0 < flagLoop (withLoop 5 alertsFlags))%Z
  /\ events (main (B := demoBackend ["routes.txt"]) (withLoop 5 alertsFlags))
       initial
     = [AlertsLoop (B := demoBackend ["routes.txt"]) tt
          (util.ResourceHTTP tt "https://mkuran.pl/gtfs/warsaw.zip"
             1800000000000)
          5 (alertsBundle alertsFlags)].
Proof.
  split; [reflexivity|]. split; [reflexivity|]. split; [reflexivity|].
  exact (proj1 (alerts_loop_hands_over (B := demoBackend ["routes.txt"])
                  (withLoop 5 alertsFlags) initial eq_refl eq_refl eq_refl)).
Defined.

(** [-b -k key] *)
Lemma brigades_once_trace_witness :
  intents brigadesFlags = 1%nat /\ flagBrigades brigadesFlags = true
  /\ (flagLoop brigadesFlags <= 0)%Z /\ flagApikey brigadesFlags <> ""
  /\ fst (main (B := demoBackend ["routes.txt"]) brigadesFlags initial) = Exit
  /\ gtfsFile (snd (main (B := demoBackend ["routes.txt"]) brigadesFlags
                      initial))
     = (["routes.txt"], ["routes.txt"]).
Proof.
  assert (Hk : flagApikey brigadesFlags <> "") by discriminate.
  split; [reflexivity|]. split; [reflexivity|].
  split; [apply Z.le_refl|]. split; [exact Hk|].
  exact (proj2 (brigades_once_trace (B := demoBackend ["routes.txt"])
                  brigadesFlags initial (["routes.txt"], [])
                  (["routes.txt"], ["routes.txt"])
                  eq_refl eq_refl (Z.le_refl 0) Hk eq_refl eq_refl)).
Defined.

(** [-b] without a key: the dataset is loaded, then the run fails. *)
Lemma brigades_key_checked_after_load_witness :
  intents (withApikey "" brigadesFlags) = 1%nat
  /\ flagBrigades (withApikey "" brigadesFlags) = true
  /\ (flagLoop (withApikey "" brigadesFlags) <= 0)%Z
  /\ flagApikey (withApikey "" brigadesFlags) = ""
  /\ events (main (B := demoBackend ["routes.txt"])
               (withApikey "" brigadesFlags)) initial
     = events (loadGtfs (B := demoBackend ["routes.txt"])
                 (withApikey "" brigadesFlags)) initial.
Proof.
  split; [reflexivity|]. split; [reflexivity|].
  split; [apply Z.le_refl|]. split; [reflexivity|].
  exact (proj1 (brigades_key_checked_after_load
                  (B := demoBackend ["routes.txt"])
                  (withApikey "" brigadesFlags) initial
                  eq_refl eq_refl (Z.le_refl 0) eq_refl)).
Defined.

(** [-a] when the dataset cannot be reached. *)
Lemma retrieval_failure_stops_loading_witness :
  retrieved (B := offlineBackend) alertsFlags
  = (([], []), Some (errors.New "no route to host"))
  /\ fst (loadGtfs (B := offlineBackend) alertsFlags initial)
     = Some (errors.New "no route to host").
Proof.
  split; [reflexivity|].
  exact (proj1 (retrieval_failure_stops_loading (B := offlineBackend)
                  alertsFlags initial ([], [])
                  (errors.New "no route to host") eq_refl)).
Defined.

(** [-a] ends normally. *)
Lemma exit_means_generated_witness :
  fst (main (B := demoBackend ["routes.txt"]) alertsFlags initial) = Exit
  /\ intents alertsFlags = 1%nat.
Proof.
  split; [reflexivity|].
  exact (proj1 (exit_means_generated (B := demoBackend ["routes.txt"])
                  alertsFlags initial eq_refl)).
Defined.


(** [-b -k key -checkdata 7ns] *)
Lemma one_shot_ignores_checkdata_witness :
  (flagLoop brigadesFlags <= 0)%Z
  /\ main (B := demoBackend ["routes.txt"]) (withDataCheck 7 brigadesFlags)
       initial
     = main (B := demoBackend ["routes.txt"]) brigadesFlags initial.
Proof.
  split; [apply Z.le_refl|].
  exact (one_shot_ignores_checkdata (B := demoBackend ["routes.txt"])
           brigadesFlags initial 7 (Z.le_refl 0)).
Defined.

(** [-p -k key -strict] *)
Lemma positions_ignore_strict_witness :
  flagPostions positionsFlags = true
  /\ main (B := demoBackend ["routes.txt"]) (withStrict true positionsFlags)
       initial
     = main (B := demoBackend ["routes.txt"]) positionsFlags initial.
Proof.
  split; [reflexivity|].
  exact (positions_ignore_strict (B := demoBackend ["routes.txt"])
           positionsFlags initial true eq_refl).
Defined.

(** [-b -k key -readable -json -brigades-file x] *)
Lemma brigades_ignore_format_flags_witness :
  flagBrigades brigadesFlags = true /\ flagAlerts brigadesFlags = false
  /\ main (B := demoBackend ["routes.txt"])
       (withReadable true (withJSON true (withBrigadesFile "x" brigadesFlags)))
       initial
     = main (B := demoBackend ["routes.txt"]) brigadesFlags initial.
Proof.
  split; [reflexivity|]. split; [reflexivity|].
  exact (brigades_ignore_format_flags (B := demoBackend ["routes.txt"])
           brigadesFlags initial true true "x" eq_refl eq_refl).
Defined.

(** [-a -k key -brigades-file x] *)
Lemma alerts_ignore_key_and_brigades_file_witness :
  flagAlerts alertsFlags = true
  /\ main (B := demoBackend ["routes.txt"])
       (withApikey "key" (withBrigadesFile "x" alertsFlags)) initial
     = main (B := demoBackend ["routes.txt"]) alertsFlags initial.
Proof.
  split; [reflexivity|].
  exact (alerts_ignore_key_and_brigades_file (B := demoBackend ["routes.txt"])
           alertsFlags initial "key" "x" eq_refl).
Defined.
